(** * read_sur.py: the Digital Surf [.sur] reader, embedded and verified

    The development follows [surface.__init__] of [read_sur.py] statement by
    statement.  The open file is a cursor over the remaining bytes, threaded
    through a small state-and-exception monad; Python exceptions are values
    of [exn]; Python floats and NumPy float64 cells are IEEE binary64 numbers
    ([spec_float] at precision 53); NumPy arrays are lists, a 2-D array being
    its shape together with its row-major data. *)

From Stdlib Require Import ZArith NArith List Bool Lia.
From Stdlib Require Import Strings.String Strings.Ascii Strings.Byte.
From Stdlib Require Import Floats.SpecFloat.
Import ListNotations.

Local Open Scope Z_scope.

(** ** Exceptions and results *)

(** The exceptions the constructor can raise: [bytes.decode] on a byte that
    is not ASCII, [struct.unpack] on a buffer of the wrong size, [list[0]] on
    an empty list, reading an attribute that was never assigned, and
    [np.reshape] on a size mismatch. *)
Inductive exn : Type :=
| UnicodeDecodeError
| StructError
| IndexError
| AttributeError
| ValueError.

Inductive res (A : Type) : Type :=
| Ok (a : A)
| Raise (e : exn).
Arguments Ok {A} a.
Arguments Raise {A} e.

(** ** The file cursor *)

(** A computation over the open file [f]: it consumes a prefix of the
    remaining bytes and returns a value, or raises. *)
Definition M (A : Type) : Type := list byte -> res (A * list byte).

Definition ret {A} (a : A) : M A := fun s => Ok (a, s).

Definition bind {A B} (m : M A) (k : A -> M B) : M B :=
  fun s => match m s with
           | Ok (a, s') => k a s'
           | Raise e => Raise e
           end.

Definition lift {A} (r : res A) : M A :=
  fun s => match r with Ok a => Ok (a, s) | Raise e => Raise e end.

Notation "x <- m ;; k" := (bind m (fun x => k))
  (at level 61, m at next level, right associativity).
Notation "m ;;; k" := (bind m (fun _ => k))
  (at level 61, right associativity).

(** [f.read(n)] on a binary file: the next [n] bytes, or fewer when the file
    ends first; it never raises. *)
Definition f_read (n : nat) : M (list byte) :=
  fun s => Ok (firstn n s, skipn n s).

(** ** Python primitives *)

(** [bs.decode('utf8')], for the only arguments the constructor passes: the
    result of [f.read(1)], which is empty at end of file and one byte
    otherwise.  A lone byte is valid UTF-8 exactly when it is below 0x80. *)
Definition decode_utf8 (bs : list byte) : res string :=
  match bs with
  | [] => Ok EmptyString
  | [b] => if (Byte.to_N b <? 128)%N
           then Ok (String (ascii_of_byte b) EmptyString)
           else Raise UnicodeDecodeError
  | _ => Raise UnicodeDecodeError
  end.

(** [int.from_bytes(bs, byteorder='little')]: unsigned, any length, zero on
    the empty buffer. *)
Fixpoint int_from_bytes (bs : list byte) : Z :=
  match bs with
  | [] => 0
  | b :: r => Z.of_N (Byte.to_N b) + 256 * int_from_bytes r
  end.

(** Two's complement reading of a [w]-byte little-endian buffer. *)
Definition int_signed (w : nat) (bs : list byte) : Z :=
  let u := int_from_bytes bs in
  let half := 2 ^ (8 * Z.of_nat w - 1) in
  if u <? half then u else u - 2 * half.

(** [struct.unpack('<i', bs)[0]]: [struct.error] unless [bs] has 4 bytes. *)
Definition unpack_i (bs : list byte) : res Z :=
  if Nat.eqb (List.length bs) 4 then Ok (int_signed 4 bs) else Raise StructError.

(** *** Floats *)

Definition float : Type := spec_float.
Definition prec : Z := 53.
Definition emax : Z := 1024.

Definition fmul : float -> float -> float := SFmul prec emax.
Definition fdiv : float -> float -> float := SFdiv prec emax.

(** Conversion of an integer to float64, as NumPy does when an integer array
    meets a Python float. *)
Definition float_of_Z (z : Z) : float := binary_normalize prec emax z 0 false.

(** The binary32 number with bit pattern [u], as a Python float (the
    conversion to binary64 is exact). *)
Definition float_of_bits32 (u : Z) : float :=
  let sign := 2 ^ 31 <=? u in
  let e := (u / 2 ^ 23) mod 256 in
  let m := u mod 2 ^ 23 in
  if e =? 255 then (if m =? 0 then S754_infinity sign else S754_nan)
  else if e =? 0 then binary_normalize prec emax (cond_Zopp sign m) (-149) sign
  else binary_normalize prec emax (cond_Zopp sign (2 ^ 23 + m)) (e - 150) sign.

(** [struct.unpack('<f', bs)[0]]: [struct.error] unless [bs] has 4 bytes. *)
Definition unpack_f (bs : list byte) : res float :=
  if Nat.eqb (List.length bs) 4 then Ok (float_of_bits32 (int_from_bytes bs))
  else Raise StructError.

(** Nearest integer to [n / d], ties to even ([0 < d]). *)
Definition div_half_even (n d : Z) : Z :=
  let q := n / d in
  let r := n mod d in
  match 2 * r ?= d with
  | Lt => q
  | Gt => q + 1
  | Eq => if Z.even q then q else q + 1
  end.

(** [round(x, 4)] on a Python float: CPython writes [x] in decimal with 4
    digits after the point, correctly rounded (ties to even), and reads the
    result back as the nearest float; NaN and the infinities are returned
    unchanged and the sign is kept. *)
Definition round4 (x : float) : float :=
  match x with
  | S754_finite s m e =>
      if 0 <=? e then x
      else
        let n := div_half_even (Zpos m * 10000) (2 ^ (- e)) in
        match n with
        | Zpos p => fdiv (S754_finite s p 0) (S754_finite false 10000 0)
        | _ => S754_zero s
        end
  | _ => x
  end.

(** *** Strings *)

(** [c.isspace()] for a one-character [str] below U+0100. *)
Definition isspace (c : ascii) : bool :=
  let n := nat_of_ascii c in
  ((9 <=? n) && (n <=? 13) || (28 <=? n) && (n <=? 32)
   || (n =? 133) || (n =? 160))%nat.

Definition str_is_empty (s : string) : bool :=
  match s with EmptyString => true | _ => false end.

(** [s.split()]: the maximal runs of non-whitespace characters; [tok] is
    the run being read. *)
Fixpoint split_from (tok s : string) : list string :=
  match s with
  | EmptyString => if str_is_empty tok then [] else [tok]
  | String c r =>
      if isspace c
      then (if str_is_empty tok then split_from EmptyString r
            else tok :: split_from EmptyString r)
      else split_from (String.append tok (String c EmptyString)) r
  end.

Definition split (s : string) : list string := split_from EmptyString s.

(** [l[0]] on a Python list. *)
Definition item0 {A} (l : list A) : res A :=
  match l with
  | [] => Raise IndexError
  | x :: _ => Ok x
  end.

(** ** Reading fields from the file *)

(** The loop [s = ''; for i in range(n): s += f.read(1).decode('utf8')]:
    characters are read one by one and appended to [acc]. *)
Fixpoint read_chars (n : nat) (acc : string) : M string :=
  match n with
  | O => ret acc
  | S n' =>
      b <- f_read 1 ;;
      c <- lift (decode_utf8 b) ;;
      read_chars n' (String.append acc c)
  end.

Definition read_text (n : nat) : M string := read_chars n EmptyString.

(** [int.from_bytes(f.read(2), byteorder='little')] *)
Definition read_short : M Z :=
  b <- f_read 2 ;; ret (int_from_bytes b).

(** [struct.unpack('<i', f.read(4))[0]] *)
Definition read_int : M Z :=
  b <- f_read 4 ;; lift (unpack_i b).

(** [struct.unpack('<f', f.read(4))[0]] *)
Definition read_float : M float :=
  b <- f_read 4 ;; lift (unpack_f b).

(** [round(struct.unpack('<f', f.read(4))[0], 4)] *)
Definition read_float4 : M float :=
  x <- read_float ;; ret (round4 x).

(** A 16-character label followed by [label.split()[0]]. *)
Definition read_label : M string :=
  s <- read_text 16 ;; lift (item0 (split s)).

(** ** NumPy primitives *)

(** The first [num] items of [w] bytes each, read as signed little-endian
    integers. *)
Fixpoint take_items (w num : nat) (s : list byte) : list Z :=
  match num with
  | O => []
  | S k => int_signed w (firstn w s) :: take_items w k (skipn w s)
  end.

(** [np.fromfile(f, dtype, count)] for a signed integer dtype of [w] bytes
    ([np.int16], [np.int32]; native byte order, here a little-endian host):
    [count] items from the current position, all the complete items left in
    the file when [count] is negative, and silently fewer than [count] when
    the file ends first. *)
Definition fromfile (w : nat) (count : Z) : M (list Z) :=
  fun s =>
    let avail := Nat.div (List.length s) w in
    let num := if count <? 0 then avail else Nat.min (Z.to_nat count) avail in
    Ok (take_items w num s, skipn (num * w) s).

(** A 2-D float64 array: its shape and its cells in row-major order. *)
Record ndarray2 : Type := {
  nrows : Z;
  ncols : Z;
  cells : list float
}.

(** [a[j, i]] for in-range indices. *)
Definition cell (a : ndarray2) (j i : Z) : option float :=
  nth_error (cells a) (Z.to_nat (j * ncols a + i)).

(** [np.reshape(a, (r, c))] of a 1-D array: a negative dimension (NumPy
    documents [-1]) is the unknown one, inferred from the size; only one may
    be unknown, and the size must be a multiple of the other, which must not
    be zero.  Without an unknown dimension the size must be [r * c].  Every
    failure is a [ValueError]. *)
Definition reshape (a : list float) (r c : Z) : res ndarray2 :=
  let n := Z.of_nat (List.length a) in
  if r <? 0 then
    if c <? 0 then Raise ValueError
    else if (c =? 0) || negb (n mod c =? 0) then Raise ValueError
    else Ok {| nrows := n / c; ncols := c; cells := a |}
  else if c <? 0 then
    if (r =? 0) || negb (n mod r =? 0) then Raise ValueError
    else Ok {| nrows := r; ncols := n / r; cells := a |}
  else if r * c =? n then Ok {| nrows := r; ncols := c; cells := a |}
  else Raise ValueError.

(** [list(range(n))] *)
Definition range (n : Z) : list Z := map Z.of_nat (seq 0 (Z.to_nat n)).

(** [ints * spacing / ratio], cell by cell, on an integer array and two
    Python floats: the result is float64, the product taken first. *)
Definition scale (ints : list Z) (spacing ratio : float) : list float :=
  map (fun k => fdiv (fmul (float_of_Z k) spacing) ratio) ints.

(** ** The surface object *)

(** The attributes [surface.__init__] assigns, under their Python names.
    [private] is assigned only when [privateSize] is not zero. *)
Record surface : Type := {
  signature : string;
  format : Z;
  objNum : Z;
  version : Z;
  objType : Z;
  objectname : string;
  operatorname : string;
  materialCode : Z;
  acquisitionType : Z;
  rangeType : Z;
  specialPoints : Z;
  absoluteHeights : Z;
  gaugeResolution : float;
  sizeOfPoints : Z;
  zMin : Z;
  zMax : Z;
  xPoints : Z;
  yPoints : Z;
  totalPoints : Z;
  xSpacing : float;
  ySpacing : float;
  zSpacing : float;
  xName : string;
  yName : string;
  zName : string;
  xStepUnit : string;
  yStepUnit : string;
  zStepUnit : string;
  xLengthUnit : string;
  yLengthUnit : string;
  zLengthUnit : string;
  xUnitRatio : float;
  yUnitRatio : float;
  zUnitRatio : float;
  imprint : Z;
  inverted : Z;
  levelled : Z;
  startSeconds : Z;
  startMintues : Z;
  startHours : Z;
  startDays : Z;
  startMonths : Z;
  startYears : Z;
  startWeekDay : Z;
  MeasurementDuration : float;
  commentSize : Z;
  privateSize : Z;
  clientZone : string;
  xOffset : float;
  yOffset : float;
  zOffset : float;
  tempSpacing : float;
  tempOffset : float;
  tempStepUnit : string;
  tempAxisName : string;
  comment : string;
  private : option string;
  points : list float;
  pointsAligned : ndarray2;
  xAxis : list float;
  yAxis : list float
}.

(** The body of [surface.__init__] under [with open(path, 'rb') as f], one
    bind per statement, in source order. *)
Definition init_body : M surface :=
  signature <- read_text 12 ;;
  format <- read_short ;;
  objNum <- read_short ;;
  version <- read_short ;;
  objType <- read_short ;;
  objectname <- read_text 30 ;;
  operatorname <- read_text 30 ;;
  materialCode <- read_short ;;
  acquisitionType <- read_short ;;
  rangeType <- read_short ;;
  specialPoints <- read_short ;;
  absoluteHeights <- read_short ;;
  gaugeResolution <- read_float4 ;;
  f_read 4 ;;;
  sizeOfPoints <- read_short ;;
  zMin <- read_int ;;
  zMax <- read_int ;;
  xPoints <- read_int ;;
  yPoints <- read_int ;;
  totalPoints <- read_int ;;
  xSpacing <- read_float ;;
  ySpacing <- read_float ;;
  zSpacing <- read_float ;;
  xName <- read_label ;;
  yName <- read_label ;;
  zName <- read_label ;;
  xStepUnit <- read_label ;;
  yStepUnit <- read_label ;;
  zStepUnit <- read_label ;;
  xLengthUnit <- read_label ;;
  yLengthUnit <- read_label ;;
  zLengthUnit <- read_label ;;
  xUnitRatio <- read_float4 ;;
  yUnitRatio <- read_float4 ;;
  zUnitRatio <- read_float4 ;;
  imprint <- read_short ;;
  inverted <- read_short ;;
  levelled <- read_short ;;
  f_read 12 ;;;
  startSeconds <- read_short ;;
  startMintues <- read_short ;;
  startHours <- read_short ;;
  startDays <- read_short ;;
  startMonths <- read_short ;;
  startYears <- read_short ;;
  startWeekDay <- read_short ;;
  MeasurementDuration <- read_float4 ;;
  f_read 10 ;;;
  commentSize <- read_short ;;
  privateSize <- read_short ;;
  clientZone <- read_text 128 ;;
  xOffset <- read_float4 ;;
  yOffset <- read_float4 ;;
  zOffset <- read_float4 ;;
  tempSpacing <- read_float4 ;;
  tempOffset <- read_float4 ;;
  tempStepUnit <- read_text 13 ;;
  tempAxisName <- read_text 13 ;;
  comment <- read_text (Z.to_nat commentSize) ;;
  private <- (if negb (privateSize =? 0)
              then s <- read_text (Z.to_nat privateSize) ;; ret (Some s)
              else ret None) ;;
  (* the last branch only prints: [self.points] stays unassigned *)
  ints <- (if sizeOfPoints =? 16
           then p <- fromfile 2 totalPoints ;; ret (Some p)
           else if sizeOfPoints =? 32
           then p <- fromfile 4 totalPoints ;; ret (Some p)
           else ret None) ;;
  (* [self.points * ...] reads the attribute *)
  ints <- lift (match ints with
                | Some p => Ok p
                | None => Raise AttributeError
                end) ;;
  let points := scale ints zSpacing zUnitRatio in
  pointsAligned <- lift (reshape points yPoints xPoints) ;;
  let xAxis := scale (range xPoints) xSpacing xUnitRatio in
  let yAxis := scale (range yPoints) ySpacing yUnitRatio in
  ret {| signature := signature; format := format; objNum := objNum;
         version := version; objType := objType; objectname := objectname;
         operatorname := operatorname; materialCode := materialCode;
         acquisitionType := acquisitionType; rangeType := rangeType;
         specialPoints := specialPoints; absoluteHeights := absoluteHeights;
         gaugeResolution := gaugeResolution; sizeOfPoints := sizeOfPoints;
         zMin := zMin; zMax := zMax; xPoints := xPoints; yPoints := yPoints;
         totalPoints := totalPoints; xSpacing := xSpacing;
         ySpacing := ySpacing; zSpacing := zSpacing; xName := xName;
         yName := yName; zName := zName; xStepUnit := xStepUnit;
         yStepUnit := yStepUnit; zStepUnit := zStepUnit;
         xLengthUnit := xLengthUnit; yLengthUnit := yLengthUnit;
         zLengthUnit := zLengthUnit; xUnitRatio := xUnitRatio;
         yUnitRatio := yUnitRatio; zUnitRatio := zUnitRatio;
         imprint := imprint; inverted := inverted; levelled := levelled;
         startSeconds := startSeconds; startMintues := startMintues;
         startHours := startHours; startDays := startDays;
         startMonths := startMonths; startYears := startYears;
         startWeekDay := startWeekDay;
         MeasurementDuration := MeasurementDuration;
         commentSize := commentSize; privateSize := privateSize;
         clientZone := clientZone; xOffset := xOffset; yOffset := yOffset;
         zOffset := zOffset; tempSpacing := tempSpacing;
         tempOffset := tempOffset; tempStepUnit := tempStepUnit;
         tempAxisName := tempAxisName; comment := comment;
         private := private; points := points;
         pointsAligned := pointsAligned; xAxis := xAxis; yAxis := yAxis |}.

(** [surface(path)] on a file whose content is [content]: the object, or the
    exception that leaves the constructor. *)
Definition surface_init (content : list byte) : res surface :=
  match init_body content with
  | Ok (r, _) => Ok r
  | Raise e => Raise e
  end.

(** ** Plotting *)

(** [a[i]] on a 1-D array: a negative index counts from the end, and an
    index out of range is an [IndexError]. *)
Definition getitem (a : list float) (i : Z) : res float :=
  let n := Z.of_nat (List.length a) in
  let j := if i <? 0 then i + n else i in
  if (0 <=? j) && (j <? n)
  then match nth_error a (Z.to_nat j) with
       | Some x => Ok x
       | None => Raise IndexError
       end
  else Raise IndexError.

(** What [plot] hands to [plt.imshow]: the image and its extent. *)
Record imshow_call : Type := {
  image : ndarray2;
  extent : list float
}.

(** [surface.plot]: the figure is opened, then the arguments of
    [plt.imshow] are evaluated, the extent from left to right; drawing
    itself and the colour bar are matplotlib's.  The result is the call
    made, or the exception raised while its arguments are evaluated. *)
Definition plot (r : surface) : res imshow_call :=
  match getitem (xAxis r) 0 with
  | Raise e => Raise e
  | Ok x0 =>
  match getitem (xAxis r) (-1) with
  | Raise e => Raise e
  | Ok x1 =>
  match getitem (yAxis r) (-1) with
  | Raise e => Raise e
  | Ok y1 =>
  match getitem (yAxis r) 0 with
  | Raise e => Raise e
  | Ok y0 => Ok {| image := pointsAligned r; extent := [x0; x1; y1; y0] |}
  end end end end.

(** * Specification *)

(** ** The file as a table of byte ranges *)

(** The [n] bytes at offset [off] (fewer when the file ends first). *)
Definition slice (off n : nat) (bs : list byte) : list byte :=
  firstn n (skipn off bs).

Definition is_ascii (b : byte) : bool := (Byte.to_N b <? 128)%N.

(** What a text loop over the bytes [l] yields. *)
Definition decode_text (l : list byte) : res string :=
  if forallb is_ascii l then Ok (string_of_list_byte l)
  else Raise UnicodeDecodeError.

(** What [read_label] yields on the bytes [l] of its field. *)
Definition decode_label (l : list byte) : res string :=
  match decode_text l with
  | Ok t => item0 (split t)
  | Raise e => Raise e
  end.

(** What [read_float4] yields on the bytes [l] of its field. *)
Definition unpack_f4 (l : list byte) : res float :=
  match unpack_f l with
  | Ok x => Ok (round4 x)
  | Raise e => Raise e
  end.

(** A reader that takes [n] bytes and computes on them alone. *)
Definition on_bytes {A} (n : nat) (g : list byte -> res A) : M A :=
  fun s => match g (firstn n s) with
           | Ok v => Ok (v, skipn n s)
           | Raise e => Raise e
           end.

(** The items [fromfile] returns. *)
Definition fromfile_items (w : nat) (count : Z) (s : list byte) : list Z :=
  match fromfile w count s with
  | Ok (l, _) => l
  | Raise _ => []
  end.

(** Where the sample block starts: after the 512-byte header, the comment
    and the private block. *)
Definition sample_offset (r : surface) : nat :=
  (Z.to_nat (privateSize r) + (Z.to_nat (commentSize r) + 512))%nat.

(** The integers [np.fromfile] delivers for the record [r] decoded from
    [bs]. *)
Definition raw_samples (bs : list byte) (r : surface) : list Z :=
  fromfile_items (Z.to_nat (sizeOfPoints r / 8)) (totalPoints r)
                 (skipn (sample_offset r) bs).

(** ** Outcomes *)

(** The exceptions a field reader can raise: those of the reshape and of the
    missing attribute come later. *)
Definition early (e : exn) : Prop :=
  match e with
  | AttributeError | ValueError => False
  | _ => True
  end.

(** [wp Qe Qo x]: the outcome [x] satisfies [Qo] when it is a value and
    [Qe] when it is an exception. *)
Definition wp {A} (Qe : exn -> Prop) (Qo : A -> list byte -> Prop)
  (x : res (A * list byte)) : Prop :=
  match x with
  | Ok (a, s) => Qo a s
  | Raise e => Qe e
  end.

(** ** The layout of a decoded file *)

(** The sample-width code of a file: the two bytes at offset 98. *)
Definition width_code (bs : list byte) : Z := int_from_bytes (slice 98 2 bs).

(** [decoded bs r]: every attribute of [r] is what the bytes of [bs] at the
    attribute's fixed offset give, the trailer and the sample block follow
    the 512-byte header, and the derived arrays are computed from the
    attributes. *)
Record decoded (bs : list byte) (r : surface) : Prop := {
  d_length : (486 <= List.length bs)%nat;
  d_signature : decode_text (slice 0 12 bs) = Ok (signature r);
  d_format : format r = int_from_bytes (slice 12 2 bs);
  d_objNum : objNum r = int_from_bytes (slice 14 2 bs);
  d_version : version r = int_from_bytes (slice 16 2 bs);
  d_objType : objType r = int_from_bytes (slice 18 2 bs);
  d_objectname : decode_text (slice 20 30 bs) = Ok (objectname r);
  d_operatorname : decode_text (slice 50 30 bs) = Ok (operatorname r);
  d_materialCode : materialCode r = int_from_bytes (slice 80 2 bs);
  d_acquisitionType : acquisitionType r = int_from_bytes (slice 82 2 bs);
  d_rangeType : rangeType r = int_from_bytes (slice 84 2 bs);
  d_specialPoints : specialPoints r = int_from_bytes (slice 86 2 bs);
  d_absoluteHeights : absoluteHeights r = int_from_bytes (slice 88 2 bs);
  d_gaugeResolution : unpack_f4 (slice 90 4 bs) = Ok (gaugeResolution r);
  d_sizeOfPoints : sizeOfPoints r = width_code bs;
  d_zMin : unpack_i (slice 100 4 bs) = Ok (zMin r);
  d_zMax : unpack_i (slice 104 4 bs) = Ok (zMax r);
  d_xPoints : unpack_i (slice 108 4 bs) = Ok (xPoints r);
  d_yPoints : unpack_i (slice 112 4 bs) = Ok (yPoints r);
  d_totalPoints : unpack_i (slice 116 4 bs) = Ok (totalPoints r);
  d_xSpacing : unpack_f (slice 120 4 bs) = Ok (xSpacing r);
  d_ySpacing : unpack_f (slice 124 4 bs) = Ok (ySpacing r);
  d_zSpacing : unpack_f (slice 128 4 bs) = Ok (zSpacing r);
  d_xName : decode_label (slice 132 16 bs) = Ok (xName r);
  d_yName : decode_label (slice 148 16 bs) = Ok (yName r);
  d_zName : decode_label (slice 164 16 bs) = Ok (zName r);
  d_xStepUnit : decode_label (slice 180 16 bs) = Ok (xStepUnit r);
  d_yStepUnit : decode_label (slice 196 16 bs) = Ok (yStepUnit r);
  d_zStepUnit : decode_label (slice 212 16 bs) = Ok (zStepUnit r);
  d_xLengthUnit : decode_label (slice 228 16 bs) = Ok (xLengthUnit r);
  d_yLengthUnit : decode_label (slice 244 16 bs) = Ok (yLengthUnit r);
  d_zLengthUnit : decode_label (slice 260 16 bs) = Ok (zLengthUnit r);
  d_xUnitRatio : unpack_f4 (slice 276 4 bs) = Ok (xUnitRatio r);
  d_yUnitRatio : unpack_f4 (slice 280 4 bs) = Ok (yUnitRatio r);
  d_zUnitRatio : unpack_f4 (slice 284 4 bs) = Ok (zUnitRatio r);
  d_imprint : imprint r = int_from_bytes (slice 288 2 bs);
  d_inverted : inverted r = int_from_bytes (slice 290 2 bs);
  d_levelled : levelled r = int_from_bytes (slice 292 2 bs);
  d_startSeconds : startSeconds r = int_from_bytes (slice 306 2 bs);
  d_startMintues : startMintues r = int_from_bytes (slice 308 2 bs);
  d_startHours : startHours r = int_from_bytes (slice 310 2 bs);
  d_startDays : startDays r = int_from_bytes (slice 312 2 bs);
  d_startMonths : startMonths r = int_from_bytes (slice 314 2 bs);
  d_startYears : startYears r = int_from_bytes (slice 316 2 bs);
  d_startWeekDay : startWeekDay r = int_from_bytes (slice 318 2 bs);
  d_MeasurementDuration :
    unpack_f4 (slice 320 4 bs) = Ok (MeasurementDuration r);
  d_commentSize : commentSize r = int_from_bytes (slice 334 2 bs);
  d_privateSize : privateSize r = int_from_bytes (slice 336 2 bs);
  d_clientZone : decode_text (slice 338 128 bs) = Ok (clientZone r);
  d_xOffset : unpack_f4 (slice 466 4 bs) = Ok (xOffset r);
  d_yOffset : unpack_f4 (slice 470 4 bs) = Ok (yOffset r);
  d_zOffset : unpack_f4 (slice 474 4 bs) = Ok (zOffset r);
  d_tempSpacing : unpack_f4 (slice 478 4 bs) = Ok (tempSpacing r);
  d_tempOffset : unpack_f4 (slice 482 4 bs) = Ok (tempOffset r);
  d_tempStepUnit : decode_text (slice 486 13 bs) = Ok (tempStepUnit r);
  d_tempAxisName : decode_text (slice 499 13 bs) = Ok (tempAxisName r);
  d_comment :
    decode_text (slice 512 (Z.to_nat (commentSize r)) bs) = Ok (comment r);
  d_private :
    match private r with
    | None => privateSize r = 0
    | Some p =>
        privateSize r <> 0 /\
        decode_text (slice (Z.to_nat (commentSize r) + 512)
                           (Z.to_nat (privateSize r)) bs) = Ok p
    end;
  d_width : sizeOfPoints r = 16 \/ sizeOfPoints r = 32;
  d_points : points r = scale (raw_samples bs r) (zSpacing r) (zUnitRatio r);
  d_pointsAligned :
    reshape (points r) (yPoints r) (xPoints r) = Ok (pointsAligned r);
  d_xAxis : xAxis r = scale (range (xPoints r)) (xSpacing r) (xUnitRatio r);
  d_yAxis : yAxis r = scale (range (yPoints r)) (ySpacing r) (yUnitRatio r)
}.

(** What an exception tells about the file: the missing attribute is read
    exactly when the width code is neither 16 nor 32, the reshape is reached
    only with a width code of 16 or 32, and both come after the last 4-byte
    field of the header (at offset 482) was read in full. *)
Definition failure (bs : list byte) (e : exn) : Prop :=
  match e with
  | AttributeError =>
      (486 <= List.length bs)%nat /\ width_code bs <> 16 /\ width_code bs <> 32
  | ValueError =>
      (486 <= List.length bs)%nat /\ (width_code bs = 16 \/ width_code bs = 32)
  | _ => True
  end.

(** ** Two runs side by side *)

(** Two outcomes agree: both values, related by [R], or the same
    exception. *)
Definition rel_res {A B} (R : A -> B -> Prop) (x : res A) (y : res B) : Prop :=
  match x, y with
  | Ok a, Ok b => R a b
  | Raise e, Raise e' => e = e'
  | _, _ => False
  end.

(** The same for two runs of a computation over the cursor; the cursors
    left behind are not compared. *)
Definition sim {A} (R : A -> A -> Prop) (x y : res (A * list byte)) : Prop :=
  rel_res (fun p q => R (fst p) (fst q)) x y.

(** [b1] and [b2] have the same length and the same bytes outside the
    range from [lo] to [hi]. *)
Definition agree_outside (lo hi : nat) (b1 b2 : list byte) : Prop :=
  List.length b1 = List.length b2 /\
  firstn lo b1 = firstn lo b2 /\
  skipn hi b1 = skipn hi b2.

(** ** Synthetic files *)

Definition byte_of_Z (z : Z) : byte :=
  match Byte.of_N (Z.to_N (z mod 256)) with
  | Some b => b
  | None => x00
  end.

(** The [w] low bytes of [z], least significant first. *)
Fixpoint le_bytes (w : nat) (z : Z) : list byte :=
  match w with
  | O => []
  | S k => byte_of_Z z :: le_bytes k (z / 256)
  end.

(** A text field of [n] bytes: [s], padded with spaces. *)
Definition pad (n : nat) (s : string) : list byte :=
  firstn n (list_byte_of_string s ++ repeat x20 n).

(** The 512-byte header of a file with the given signature, sample-width
    code, [zMin], [zMax], [xPoints], [yPoints], [totalPoints], the bit
    patterns of the three spacings, the text of the [xName] field, the bit
    patterns of the three unit ratios, and the comment and private sizes;
    every other field is zero or blank. *)
Definition header (sig : string) (width zmin zmax xp yp tp xs ys zs : Z)
  (xname : string) (xur yur zur csize psize : Z) : list byte :=
  pad 12 sig
  ++ le_bytes 2 0 ++ le_bytes 2 1 ++ le_bytes 2 1 ++ le_bytes 2 2
  ++ pad 30 "profile" ++ pad 30 "operator"
  ++ repeat x00 10
  ++ le_bytes 4 0 ++ repeat x00 4
  ++ le_bytes 2 width
  ++ le_bytes 4 zmin ++ le_bytes 4 zmax
  ++ le_bytes 4 xp ++ le_bytes 4 yp ++ le_bytes 4 tp
  ++ le_bytes 4 xs ++ le_bytes 4 ys ++ le_bytes 4 zs
  ++ pad 16 xname ++ pad 16 "Y" ++ pad 16 "Z"
  ++ pad 16 "um" ++ pad 16 "um" ++ pad 16 "nm"
  ++ pad 16 "mm" ++ pad 16 "mm" ++ pad 16 "um"
  ++ le_bytes 4 xur ++ le_bytes 4 yur ++ le_bytes 4 zur
  ++ repeat x00 6 ++ repeat x00 12 ++ repeat x00 14
  ++ le_bytes 4 0 ++ repeat x00 10
  ++ le_bytes 2 csize ++ le_bytes 2 psize
  ++ pad 128 ""
  ++ repeat x00 20
  ++ pad 13 "" ++ pad 13 "".

(** The bit patterns of the binary32 numbers 1.0 and 2.0. *)
Definition bits_one : Z := 0x3F800000.
Definition bits_two : Z := 0x40000000.

Definition samples16 (l : list Z) : list byte := flat_map (le_bytes 2) l.
Definition samples32 (l : list Z) : list byte := flat_map (le_bytes 4) l.

(** The scenario of the specification: a 2 x 2 grid of 16-bit samples
    10, 20, 30, 40 with [zSpacing = 1.0] and [zUnitRatio = 2.0]. *)
Definition example_file : list byte :=
  header "DIGITAL SURF" 16 0 0 2 2 4 bits_one bits_one bits_one "X"
         bits_one bits_one bits_two 0 0
  ++ samples16 [10; 20; 30; 40].

(** ** The z-range bounds (C9) *)

(** The derived arrays of two objects coincide. *)
Definition same_arrays (r1 r2 : surface) : Prop :=
  points r1 = points r2 /\ pointsAligned r1 = pointsAligned r2 /\
  xAxis r1 = xAxis r2 /\ yAxis r1 = yAxis r2.

(** The example file with other bytes for [zMin] and [zMax]. *)
Definition example_file_zrange : list byte :=
  header "DIGITAL SURF" 16 (-500) 70000 2 2 4 bits_one bits_one bits_one "X"
         bits_one bits_one bits_two 0 0
  ++ samples16 [10; 20; 30; 40].

(** ** The signature (C1) *)

(** [r] with another signature. *)
Definition with_signature (s : string) (r : surface) : surface :=
  {| signature := s; format := format r; objNum := objNum r;
     version := version r; objType := objType r;
     objectname := objectname r; operatorname := operatorname r;
     materialCode := materialCode r; acquisitionType := acquisitionType r;
     rangeType := rangeType r; specialPoints := specialPoints r;
     absoluteHeights := absoluteHeights r;
     gaugeResolution := gaugeResolution r; sizeOfPoints := sizeOfPoints r;
     zMin := zMin r; zMax := zMax r; xPoints := xPoints r;
     yPoints := yPoints r; totalPoints := totalPoints r;
     xSpacing := xSpacing r; ySpacing := ySpacing r; zSpacing := zSpacing r;
     xName := xName r; yName := yName r; zName := zName r;
     xStepUnit := xStepUnit r; yStepUnit := yStepUnit r;
     zStepUnit := zStepUnit r; xLengthUnit := xLengthUnit r;
     yLengthUnit := yLengthUnit r; zLengthUnit := zLengthUnit r;
     xUnitRatio := xUnitRatio r; yUnitRatio := yUnitRatio r;
     zUnitRatio := zUnitRatio r; imprint := imprint r;
     inverted := inverted r; levelled := levelled r;
     startSeconds := startSeconds r; startMintues := startMintues r;
     startHours := startHours r; startDays := startDays r;
     startMonths := startMonths r; startYears := startYears r;
     startWeekDay := startWeekDay r;
     MeasurementDuration := MeasurementDuration r;
     commentSize := commentSize r; privateSize := privateSize r;
     clientZone := clientZone r; xOffset := xOffset r; yOffset := yOffset r;
     zOffset := zOffset r; tempSpacing := tempSpacing r;
     tempOffset := tempOffset r; tempStepUnit := tempStepUnit r;
     tempAxisName := tempAxisName r; comment := comment r;
     private := private r; points := points r;
     pointsAligned := pointsAligned r; xAxis := xAxis r; yAxis := yAxis r |}.

(** The example file under a signature that no format defines. *)
Definition example_file_unsigned : list byte :=
  header "NOT A SURF!!" 16 0 0 2 2 4 bits_one bits_one bits_one "X"
         bits_one bits_one bits_two 0 0
  ++ samples16 [10; 20; 30; 40].

(** ** Arrays and floats *)

(** How many items [fromfile] delivers. *)
Definition fromfile_count (w : nat) (count : Z) (s : list byte) : nat :=
  let avail := Nat.div (List.length s) w in
  if count <? 0 then avail else Nat.min (Z.to_nat count) avail.

Definition is_zero (x : float) : bool :=
  match x with S754_zero _ => true | _ => false end.

Definition is_nan (x : float) : bool :=
  match x with S754_nan => true | _ => false end.

(** Neither an infinity nor NaN. *)
Definition is_finite (x : float) : bool :=
  match x with S754_zero _ | S754_finite _ _ _ => true | _ => false end.

(** ** Short files (C7) *)

(** A file that stops after the last 4-byte field of the header, 26 bytes
    before the header ends: an empty grid of 16-bit samples. *)
Definition truncated_file : list byte :=
  firstn 486 (header "DIGITAL SURF" 16 0 0 0 0 0 bits_one bits_one bits_one
                     "X" bits_one bits_one bits_one 0 0).

(** ** The comment and the private block (C8) *)

(** A complete header that announces a comment of 5 bytes, and nothing
    after it. *)
Definition comment_cut_file : list byte :=
  header "DIGITAL SURF" 16 0 0 0 0 0 bits_one bits_one bits_one "X"
         bits_one bits_one bits_one 5 0.

(** A file with a comment of 3 bytes and a private block of 2. *)
Definition trailer_file : list byte :=
  header "DIGITAL SURF" 16 0 0 2 2 4 bits_one bits_one bits_one "X"
         bits_one bits_one bits_two 3 2
  ++ list_byte_of_string "abcpq" ++ samples16 [10; 20; 30; 40].

(** ** Labels without a token (C10) *)

(** The whole field is whitespace (which includes the field cut to nothing
    by the end of the file). *)
Definition blank (l : list byte) : bool :=
  forallb (fun b => isspace (ascii_of_byte b)) l.

(** The example file with an [xName] field of 16 spaces. *)
Definition blank_label_file : list byte :=
  header "DIGITAL SURF" 16 0 0 2 2 4 bits_one bits_one bits_one ""
         bits_one bits_one bits_two 0 0
  ++ samples16 [10; 20; 30; 40].


(** ** Files whose fields can all be read (C2, C4) *)

(** Every field before the sample block can be read: the 4-byte fields of
    the header are complete (the last one ends at offset 486), the bytes of
    the text fields, of the comment and of the private block are ASCII, and
    each of the nine label fields holds a token. *)
Record readable (bs : list byte) : Prop := {
  r_length : (486 <= List.length bs)%nat;
  r_signature : forallb is_ascii (slice 0 12 bs) = true;
  r_objectname : forallb is_ascii (slice 20 30 bs) = true;
  r_operatorname : forallb is_ascii (slice 50 30 bs) = true;
  r_labels : forall k, (k < 9)%nat ->
             forallb is_ascii (slice (132 + 16 * k) 16 bs) = true /\
             blank (slice (132 + 16 * k) 16 bs) = false;
  r_clientZone : forallb is_ascii (slice 338 128 bs) = true;
  r_tempStepUnit : forallb is_ascii (slice 486 13 bs) = true;
  r_tempAxisName : forallb is_ascii (slice 499 13 bs) = true;
  r_comment :
    forallb is_ascii
      (slice 512 (Z.to_nat (int_from_bytes (slice 334 2 bs))) bs) = true;
  r_private :
    forallb is_ascii
      (slice (Z.to_nat (int_from_bytes (slice 334 2 bs)) + 512)
             (Z.to_nat (int_from_bytes (slice 336 2 bs))) bs) = true
}.

(** What an exception tells about the fields: the exceptions of the missing
    attribute and of the reshape come after every field was read, and every
    other exception comes from a field that cannot be read. *)
Definition failure_readable (bs : list byte) (e : exn) : Prop :=
  match e with
  | AttributeError | ValueError => readable bs
  | _ => ~ readable bs
  end.

(** ** The sample width (C2) *)

(** A sample after calibration: [raw * zSpacing / zUnitRatio]. *)
Definition calibrated (r : surface) (raw : Z) : float :=
  fdiv (fmul (float_of_Z raw) (zSpacing r)) (zUnitRatio r).

(** The example file with a width code of 8. *)
Definition width8_file : list byte :=
  header "DIGITAL SURF" 8 0 0 2 2 4 bits_one bits_one bits_one "X"
         bits_one bits_one bits_two 0 0
  ++ samples16 [10; 20; 30; 40].

(** The example grid stored as 32-bit samples, the second one negative. *)
Definition example_file32 : list byte :=
  header "DIGITAL SURF" 32 0 0 2 2 4 bits_one bits_one bits_one "X"
         bits_one bits_one bits_two 0 0
  ++ samples32 [10; -20; 30; 40].

(** The value of a byte. *)
Definition byte_value (b : byte) : Z := Z.of_N (Byte.to_N b).

(** The signed reading of the unsigned [bits]-bit number [u]. *)
Definition twos_complement (bits u : Z) : Z :=
  if u <? 2 ^ (bits - 1) then u else u - 2 ^ bits.

(** The example file with a width code of 8 and an [xName] field of 16
    spaces. *)
Definition width8_blank_file : list byte :=
  header "DIGITAL SURF" 8 0 0 2 2 4 bits_one bits_one bits_one ""
         bits_one bits_one bits_two 0 0
  ++ samples16 [10; 20; 30; 40].

(** The example file with a negative second sample, bytes [ec ff]. *)
Definition negative16_file : list byte :=
  header "DIGITAL SURF" 16 0 0 2 2 4 bits_one bits_one bits_one "X"
         bits_one bits_one bits_two 0 0
  ++ samples16 [10; -20; 30; 40].

(** ** The shape of the grid (C4, C5) *)

(** The 4-byte signed and the 2-byte unsigned integer at an offset of a
    file. *)
Definition file_int (off : nat) (bs : list byte) : Z :=
  int_signed 4 (slice off 4 bs).
Definition file_short (off : nat) (bs : list byte) : Z :=
  int_from_bytes (slice off 2 bs).

(** The file holds all the samples its header announces: [totalPoints] is
    not negative and that many samples of the announced width follow the
    trailer. *)
Definition holds_samples (bs : list byte) : Prop :=
  0 <= file_int 116 bs /\
  (Z.to_nat (file_int 116 bs) * Z.to_nat (width_code bs / 8)
   + (Z.to_nat (file_short 336 bs) + (Z.to_nat (file_short 334 bs) + 512))
   <= List.length bs)%nat.

(** The example file announcing 100 samples and holding 4. *)
Definition total100_file : list byte :=
  header "DIGITAL SURF" 16 0 0 2 2 100 bits_one bits_one bits_one "X"
         bits_one bits_one bits_two 0 0
  ++ samples16 [10; 20; 30; 40].

(** A file announcing and holding 5 samples for a 2 x 2 grid. *)
Definition total5_file : list byte :=
  header "DIGITAL SURF" 16 0 0 2 2 5 bits_one bits_one bits_one "X"
         bits_one bits_one bits_two 0 0
  ++ samples16 [10; 20; 30; 40; 50].

(** The example file with [yPoints = -1]. *)
Definition wildcard_file : list byte :=
  header "DIGITAL SURF" 16 0 0 2 (-1) 4 bits_one bits_one bits_one "X"
         bits_one bits_one bits_two 0 0
  ++ samples16 [10; 20; 30; 40].

(** The rows of a 2-D array, as [a.tolist()] gives them. *)
Fixpoint chunks (n w : nat) (l : list float) : list (list float) :=
  match n with
  | O => []
  | S k => firstn w l :: chunks k w (skipn w l)
  end.

Definition rows_of (a : ndarray2) : list (list float) :=
  chunks (Z.to_nat (nrows a)) (Z.to_nat (ncols a)) (cells a).

(** ** The axes (C6) *)

(** The example file with [xUnitRatio = 0]. *)
Definition zero_xratio_file : list byte :=
  header "DIGITAL SURF" 16 0 0 2 2 4 bits_one bits_one bits_one "X"
         0 bits_one bits_two 0 0
  ++ samples16 [10; 20; 30; 40].

(** ** The unit ratios (C3) *)

(** The example file with [zUnitRatio = 0]. *)
Definition zero_zratio_file : list byte :=
  header "DIGITAL SURF" 16 0 0 2 2 4 bits_one bits_one bits_one "X"
         bits_one bits_one 0 0 0
  ++ samples16 [10; 20; 30; 40].

(** Two objects have arrays of the same shapes. *)
Definition same_shape (r1 r2 : surface) : Prop :=
  nrows (pointsAligned r1) = nrows (pointsAligned r2) /\
  ncols (pointsAligned r1) = ncols (pointsAligned r2) /\
  List.length (points r1) = List.length (points r2) /\
  List.length (xAxis r1) = List.length (xAxis r2) /\
  List.length (yAxis r1) = List.length (yAxis r2).

(** What a zero unit ratio leaves in the arrays: no finite cell. *)
Definition divided_by_zero (r : surface) : Prop :=
  (is_zero (zUnitRatio r) = true ->
   Forall (fun c => is_finite c = false) (cells (pointsAligned r))) /\
  (is_zero (xUnitRatio r) = true ->
   Forall (fun c => is_finite c = false) (xAxis r)) /\
  (is_zero (yUnitRatio r) = true ->
   Forall (fun c => is_finite c = false) (yAxis r)).

(** ** Bytes that are skipped, stored or never reached *)

(** The example file with other bytes in the first reserved range. *)
Definition example_file_reserved : list byte :=
  firstn 94 example_file ++ [x01; x02; x03; x04] ++ skipn 98 example_file.

(** The example file with other bytes for the three offsets. *)
Definition example_file_offsets : list byte :=
  firstn 466 example_file
  ++ le_bytes 4 bits_one ++ le_bytes 4 bits_two ++ le_bytes 4 bits_two
  ++ skipn 478 example_file.

(** ** First tokens *)

(** Every character of [s] satisfies [p]. *)
Fixpoint all_chars (p : ascii -> bool) (s : string) : bool :=
  match s with
  | EmptyString => true
  | String c r => p c && all_chars p r
  end.

(** Empty, or beginning with whitespace. *)
Definition starts_blank (s : string) : bool :=
  match s with
  | EmptyString => true
  | String c _ => isspace c
  end.

(** [tok] is the first token of the text [t]: [t] is whitespace, then
    [tok], which is not empty and holds no whitespace, then nothing or
    something that begins with whitespace. *)
Definition first_token (t tok : string) : Prop :=
  exists pre post,
    t = String.append pre (String.append tok post) /\
    all_chars isspace pre = true /\
    tok <> EmptyString /\
    all_chars (fun c => negb (isspace c)) tok = true /\
    starts_blank post = true.

(** The nine labels of an object, in the order of their fields. *)
Definition labels (r : surface) : list string :=
  [xName r; yName r; zName r; xStepUnit r; yStepUnit r; zStepUnit r;
   xLengthUnit r; yLengthUnit r; zLengthUnit r].

(** A file whose [xName] field reads "X axis": two tokens. *)
Definition two_word_file : list byte :=
  header "DIGITAL SURF" 16 0 0 2 2 4 bits_one bits_one bits_one "X axis"
         bits_one bits_one bits_two 0 0
  ++ samples16 [10; 20; 30; 40].

(** ** Text and integer attributes *)

(** The text [s] is the bytes [l], all ASCII, one character per byte. *)
Definition verbatim (l : list byte) (s : string) : Prop :=
  forallb is_ascii l = true /\ s = string_of_list_byte l.

(** The 2-byte attributes of an object. *)
Definition shorts (r : surface) : list Z :=
  [format r; objNum r; version r; objType r; materialCode r;
   acquisitionType r; rangeType r; specialPoints r; absoluteHeights r;
   sizeOfPoints r; imprint r; inverted r; levelled r; startSeconds r;
   startMintues r; startHours r; startDays r; startMonths r; startYears r;
   startWeekDay r; commentSize r; privateSize r].

(** The 4-byte integer attributes of an object. *)
Definition int32s (r : surface) : list Z :=
  [zMin r; zMax r; xPoints r; yPoints r; totalPoints r].

(** ** Plot extent and sample count *)

(** Cell [k] of an axis. *)
Definition axis_cell (k : Z) (spacing ratio : float) : float :=
  fdiv (fmul (float_of_Z k) spacing) ratio.

(** The example file with [totalPoints = -1]. *)
Definition all_samples_file : list byte :=
  header "DIGITAL SURF" 16 0 0 2 2 (-1) bits_one bits_one bits_one "X"
         bits_one bits_one bits_two 0 0
  ++ samples16 [10; 20; 30; 40].

(** * Verification *)

(** ** Strings and lists *)

Lemma append_empty_r (s : string) : String.append s EmptyString = s.
Proof. induction s as [|c s IH]; simpl; [reflexivity | now rewrite IH]. Qed.

Lemma append_assoc (a b c : string) :
  String.append (String.append a b) c = String.append a (String.append b c).
Proof. induction a as [|x a IH]; simpl; [reflexivity | now rewrite IH]. Qed.

Lemma length_append (a b : string) :
  String.length (String.append a b) = (String.length a + String.length b)%nat.
Proof. induction a as [|x a IH]; simpl; [reflexivity | now rewrite IH]. Qed.

Lemma length_string_of_list_byte (l : list byte) :
  String.length (string_of_list_byte l) = List.length l.
Proof.
  unfold string_of_list_byte.
  induction l as [|b l IH]; simpl; [reflexivity | now rewrite IH].
Qed.

Lemma length_slice (off n : nat) (bs : list byte) :
  List.length (slice off n bs) = Nat.min n (List.length bs - off).
Proof. unfold slice. now rewrite length_firstn, length_skipn. Qed.

Lemma slice_full (off n : nat) (bs : list byte) :
  List.length (slice off n bs) = n -> (0 < n)%nat ->
  (off + n <= List.length bs)%nat.
Proof. rewrite length_slice. lia. Qed.

(** ** The primitives on concrete values *)

Example int_from_bytes_short_read :
  int_from_bytes [x10; x00] = 16 /\ int_from_bytes [x10] = 16 /\
  int_from_bytes [] = 0.
Proof. repeat split. Qed.

Example unpack_i_values :
  unpack_i [xff; xff; xff; xff] = Ok (-1) /\
  unpack_i [x00; x00; x00; x80] = Ok (-2147483648) /\
  unpack_i [xff; xff] = Raise StructError.
Proof. repeat split. Qed.

Example unpack_f_values :
  unpack_f [x00; x00; x80; x3f] = Ok (float_of_Z 1) /\
  unpack_f [x00; x00; x20; xc1] = Ok (float_of_Z (-10)) /\
  unpack_f [x00; x00; x80; x7f] = Ok (S754_infinity false) /\
  unpack_f [x00; x00; x80] = Raise StructError.
Proof. repeat split. Qed.

(** [round(x, 4)] on the binary32 numbers nearest to 0.1 and to -0.000025,
    and on 0.03125, a tie that goes to the even digit. *)
Example round4_values :
  round4 (float_of_bits32 0x3DCCCCCD) = fdiv (float_of_Z 1) (float_of_Z 10) /\
  round4 (float_of_bits32 0xB7D1B717) = S754_zero true /\
  round4 (float_of_bits32 0x3D000000)
    = fdiv (float_of_Z 312) (float_of_Z 10000).
Proof. repeat split; vm_compute; reflexivity. Qed.

(** A NUL is not whitespace: a label padded with NULs keeps them. *)
Example split_values :
  split " um  mm " = ["um"%string; "mm"%string] /\
  split "    " = [] /\
  split (String "X" (String zero EmptyString))
    = [String "X" (String zero EmptyString)].
Proof. repeat split. Qed.

Example fromfile_values :
  fromfile_items 2 100 [x0a; x00; xec; xff; x1e] = [10; -20] /\
  fromfile_items 2 (-1) [x0a; x00; xec; xff; x1e] = [10; -20] /\
  fromfile_items 2 1 [x0a; x00; xec; xff; x1e] = [10].
Proof. repeat split. Qed.

Example reshape_values :
  reshape [float_of_Z 1; float_of_Z 2] 2 1
    = Ok {| nrows := 2; ncols := 1; cells := [float_of_Z 1; float_of_Z 2] |} /\
  reshape [float_of_Z 1; float_of_Z 2] (-1) 1
    = Ok {| nrows := 2; ncols := 1; cells := [float_of_Z 1; float_of_Z 2] |} /\
  reshape [float_of_Z 1; float_of_Z 2] 2 2 = Raise ValueError /\
  reshape [] 0 (-1) = Raise ValueError.
Proof. repeat split. Qed.

(** ** The readers, as functions of the bytes they take *)

Lemma read_chars_spec (n : nat) : forall acc s,
  read_chars n acc s =
  match decode_text (firstn n s) with
  | Ok t => Ok (String.append acc t, skipn n s)
  | Raise e => Raise e
  end.
Proof.
  induction n as [|n IH]; intros acc s.
  - simpl. unfold ret. now rewrite append_empty_r.
  - destruct s as [|b s].
    + cbn [read_chars]. unfold bind at 1. unfold f_read.
      cbn [firstn skipn]. unfold bind, lift. cbn [decode_utf8].
      rewrite IH, firstn_nil, skipn_nil. unfold decode_text. simpl.
      now rewrite !append_empty_r.
    + cbn [read_chars]. unfold bind at 1. unfold f_read.
      cbn [firstn skipn]. unfold bind, lift. cbn [decode_utf8].
      unfold decode_text. cbn [forallb]. unfold is_ascii at 1.
      destruct (Byte.to_N b <? 128)%N.
      * rewrite IH. unfold decode_text. cbn [andb].
        destruct (forallb is_ascii (firstn n s)); [|reflexivity].
        rewrite append_assoc. reflexivity.
      * reflexivity.
Qed.

Lemma read_text_spec (n : nat) (s : list byte) :
  read_text n s = on_bytes n decode_text s.
Proof. unfold read_text, on_bytes. now rewrite read_chars_spec. Qed.

Lemma read_short_spec (s : list byte) :
  read_short s = on_bytes 2 (fun b => Ok (int_from_bytes b)) s.
Proof. reflexivity. Qed.

Lemma read_int_spec (s : list byte) : read_int s = on_bytes 4 unpack_i s.
Proof.
  unfold read_int, on_bytes, bind, f_read, lift.
  now destruct (unpack_i (firstn 4 s)).
Qed.

Lemma read_float_spec (s : list byte) : read_float s = on_bytes 4 unpack_f s.
Proof.
  unfold read_float, on_bytes, bind, f_read, lift.
  now destruct (unpack_f (firstn 4 s)).
Qed.

Lemma read_float4_spec (s : list byte) :
  read_float4 s = on_bytes 4 unpack_f4 s.
Proof.
  unfold read_float4, bind. rewrite read_float_spec.
  unfold on_bytes, unpack_f4. now destruct (unpack_f (firstn 4 s)).
Qed.

Lemma read_label_spec (s : list byte) :
  read_label s = on_bytes 16 decode_label s.
Proof.
  unfold read_label, bind. rewrite read_text_spec.
  unfold on_bytes, decode_label, lift.
  destruct (decode_text (firstn 16 s)); [|reflexivity].
  now destruct (item0 (split a)).
Qed.

Lemma f_read_spec (n : nat) (s : list byte) : f_read n s = on_bytes n Ok s.
Proof. reflexivity. Qed.

Lemma decode_text_raise l e : decode_text l = Raise e -> early e.
Proof.
  unfold decode_text. destruct (forallb is_ascii l); [discriminate|].
  intros [= <-]. exact I.
Qed.

Lemma unpack_i_raise l e : unpack_i l = Raise e -> early e.
Proof.
  unfold unpack_i. destruct (Nat.eqb _ _); [discriminate|].
  intros [= <-]. exact I.
Qed.

Lemma unpack_f_raise l e : unpack_f l = Raise e -> early e.
Proof.
  unfold unpack_f. destruct (Nat.eqb _ _); [discriminate|].
  intros [= <-]. exact I.
Qed.

Lemma unpack_f4_raise l e : unpack_f4 l = Raise e -> early e.
Proof.
  unfold unpack_f4. destruct (unpack_f l) eqn:E; [discriminate|].
  intros [= <-]. eapply unpack_f_raise, E.
Qed.

Lemma decode_label_raise l e : decode_label l = Raise e -> early e.
Proof.
  unfold decode_label. destruct (decode_text l) as [t|e'] eqn:E.
  - destruct (split t); simpl; [|discriminate]. intros [= <-]. exact I.
  - intros [= <-]. eapply decode_text_raise, E.
Qed.

Lemma unpack_i_ok l v :
  unpack_i l = Ok v -> List.length l = 4%nat /\ v = int_signed 4 l.
Proof.
  unfold unpack_i. destruct (Nat.eqb_spec (List.length l) 4); [|discriminate].
  intros [= <-]. now split.
Qed.

Lemma unpack_f_ok l v : unpack_f l = Ok v -> List.length l = 4%nat.
Proof.
  unfold unpack_f. destruct (Nat.eqb_spec (List.length l) 4); [|discriminate].
  now intros _.
Qed.

Lemma unpack_f4_ok l v :
  unpack_f4 l = Ok v ->
  exists x, unpack_f l = Ok x /\ v = round4 x /\ List.length l = 4%nat.
Proof.
  unfold unpack_f4. destruct (unpack_f l) as [x|] eqn:E; [|discriminate].
  intros [= <-]. exists x. repeat split. eapply unpack_f_ok, E.
Qed.

Lemma decode_text_ok l t :
  decode_text l = Ok t ->
  forallb is_ascii l = true /\ t = string_of_list_byte l.
Proof.
  unfold decode_text. destruct (forallb is_ascii l); [|discriminate].
  intros [= <-]. now split.
Qed.

(** ** Weakest preconditions over the cursor *)

Lemma wp_bind {A B} Qe Qo (m : M A) (k : A -> M B) s :
  wp Qe (fun a s' => wp Qe Qo (k a s')) (m s) -> wp Qe Qo (bind m k s).
Proof. unfold wp, bind. destruct (m s) as [[a s']|e]; auto. Qed.

(** A reader of [n] bytes run at offset [off] of [bs] leaves the cursor at
    offset [n + off]. *)
Lemma wp_reader {A B} Qe Qo (m : M A) n g (k : A -> M B) off off' bs :
  (forall s, m s = on_bytes n g s) ->
  off' = (n + off)%nat ->
  (forall e, g (slice off n bs) = Raise e -> Qe e) ->
  (forall a, g (slice off n bs) = Ok a -> wp Qe Qo (k a (skipn off' bs))) ->
  wp Qe Qo (bind m k (skipn off bs)).
Proof.
  intros Hm -> He Ho. apply wp_bind. rewrite Hm. unfold on_bytes.
  fold (slice off n bs). rewrite skipn_skipn.
  destruct (g (slice off n bs)) as [a|e]; simpl; auto.
Qed.

Lemma bind_assoc {A B C} (m : M A) (f : A -> M B) (k : B -> M C) s :
  bind (bind m f) k s = bind m (fun a => bind (f a) k) s.
Proof. unfold bind. now destruct (m s) as [[a s']|e]. Qed.

Lemma bind_ret {A B} (a : A) (k : A -> M B) s : bind (ret a) k s = k a s.
Proof. reflexivity. Qed.

Lemma fromfile_ok (w : nat) (count : Z) (s : list byte) :
  exists s', fromfile w count s = Ok (fromfile_items w count s, s').
Proof. unfold fromfile_items, fromfile. eexists. reflexivity. Qed.

Ltac reader_spec m :=
  lazymatch m with
  | read_short => constr:(read_short_spec)
  | read_int => constr:(read_int_spec)
  | read_float => constr:(read_float_spec)
  | read_float4 => constr:(read_float4_spec)
  | read_label => constr:(read_label_spec)
  | read_text ?n => constr:(read_text_spec n)
  | f_read ?n => constr:(f_read_spec n)
  end.

Ltac reader_width m :=
  lazymatch m with
  | read_short => constr:(2%nat)
  | read_int => constr:(4%nat)
  | read_float => constr:(4%nat)
  | read_float4 => constr:(4%nat)
  | read_label => constr:(16%nat)
  | read_text ?n => constr:(n)
  | f_read ?n => constr:(n)
  end.

Ltac early_of H :=
  first [ discriminate H
        | apply unpack_i_raise in H
        | apply unpack_f4_raise in H
        | apply unpack_f_raise in H
        | apply decode_label_raise in H
        | apply decode_text_raise in H ].

Ltac value_of H :=
  try (injection H as H; subst).

(** One statement of the fixed header: the reader at the head of the
    continuation is run at its offset; [fail_tac] closes the branch where it
    raises. *)
Ltac header_step fail_tac :=
  lazymatch goal with
  | |- wp ?Qe ?Qo (bind ?m ?k (skipn ?off ?bs)) =>
      let sp := reader_spec m in
      let n := reader_width m in
      let off' := eval vm_compute in (n + off)%nat in
      apply (wp_reader Qe Qo m n _ k off off' bs sp eq_refl);
      [ let e := fresh "e" in let H := fresh "H" in
        intros e H; early_of H; fail_tac H
      | let a := fresh "v" in let H := fresh "H" in
        intros a H; value_of H; cbv beta ]
  end.

(** ** The layout of a decoded file *)

Lemma early_failure bs e : early e -> failure bs e.
Proof. destruct e; simpl; tauto. Qed.

Ltac by_early bs H := exact (early_failure bs _ H).

Lemma wp_lift {A B} Qe Qo (x : res A) (k : A -> M B) s :
  (forall e, x = Raise e -> Qe e) ->
  (forall a, x = Ok a -> wp Qe Qo (k a s)) ->
  wp Qe Qo (bind (lift x) k s).
Proof. intros He Ho. unfold bind, lift. destruct x; simpl; auto. Qed.

(** The optional private block, read at offset [off]. *)
Lemma wp_private {B} Qe Qo psz (k : option string -> M B) off bs :
  (forall e, early e -> Qe e) ->
  (forall priv,
      match priv with
      | None => psz = 0
      | Some p =>
          psz <> 0 /\ decode_text (slice off (Z.to_nat psz) bs) = Ok p
      end ->
      wp Qe Qo (k priv (skipn (Z.to_nat psz + off) bs))) ->
  wp Qe Qo
     (bind (if negb (psz =? 0)
            then s <- read_text (Z.to_nat psz) ;; ret (Some s)
            else ret None) k (skipn off bs)).
Proof.
  intros He Ho. destruct (Z.eqb_spec psz 0) as [->|Hne]; cbn [negb].
  - rewrite bind_ret. now apply (Ho None).
  - rewrite bind_assoc.
    apply (wp_reader Qe Qo _ (Z.to_nat psz) _ _ off (Z.to_nat psz + off)%nat
             bs (read_text_spec _) eq_refl).
    + intros e H. apply He. eapply decode_text_raise, H.
    + intros p Hp. rewrite bind_ret. now apply (Ho (Some p)).
Qed.

(** The sample block: the branch on the width code, then the read of
    [self.points]. *)
Lemma wp_samples {B} Qe Qo code count (k : list Z -> M B) s :
  (code <> 16 -> code <> 32 -> Qe AttributeError) ->
  (forall s', code = 16 \/ code = 32 ->
     wp Qe Qo (k (fromfile_items (Z.to_nat (code / 8)) count s) s')) ->
  wp Qe Qo
     (bind (if code =? 16
            then p <- fromfile 2 count ;; ret (Some p)
            else if code =? 32
            then p <- fromfile 4 count ;; ret (Some p)
            else ret None)
           (fun ints =>
              bind (lift (match ints with
                          | Some p => Ok p
                          | None => Raise AttributeError
                          end)) k) s).
Proof.
  intros He Ho.
  destruct (Z.eqb_spec code 16) as [->|H16];
    [|destruct (Z.eqb_spec code 32) as [->|H32]].
  - rewrite bind_assoc. destruct (fromfile_ok 2 count s) as [s' Hs'].
    unfold bind at 1. rewrite Hs'. rewrite bind_ret.
    apply wp_lift; [discriminate|]. intros a [= <-]. apply Ho. now left.
  - rewrite bind_assoc. destruct (fromfile_ok 4 count s) as [s' Hs'].
    unfold bind at 1. rewrite Hs'. rewrite bind_ret.
    apply wp_lift; [discriminate|]. intros a [= <-]. apply Ho. now right.
  - rewrite bind_ret. apply wp_lift; [|discriminate].
    intros e [= <-]. now apply He.
Qed.

Lemma reshape_raise a r c e : reshape a r c = Raise e -> e = ValueError.
Proof.
  unfold reshape.
  repeat match goal with
         | |- context [if ?b then _ else _] => destruct b
         end; congruence.
Qed.

(** The constructor, run statement by statement from offset 0: an object
    it returns is laid out as [decoded] says, and an exception it raises is
    explained by [failure]. *)
Lemma init_body_spec (bs : list byte) :
  wp (failure bs) (fun r _ => decoded bs r) (init_body bs).
Proof.
  change (init_body bs) with (init_body (skipn 0 bs)).
  unfold init_body.
  do 58 (header_step ltac:(by_early bs)).
  (* the comment *)
  lazymatch goal with
  | |- wp ?Qe ?Qo (bind (read_text ?n) ?k _) =>
      apply (wp_reader Qe Qo _ n _ k 512%nat (n + 512)%nat bs
               (read_text_spec n) eq_refl);
      [ intros e He; apply decode_text_raise in He; by_early bs He
      | intros cm Hcm; cbv beta ]
  end.
  assert (Hlen : (486 <= List.length bs)%nat).
  { match goal with
    | H : unpack_f4 (slice 482 4 bs) = Ok _ |- _ =>
        apply unpack_f4_ok in H; destruct H as (x & _ & _ & H);
        apply slice_full in H; lia
    end. }
  (* the private block *)
  apply wp_private; [apply early_failure|]. intros priv Hpriv.
  (* the sample block *)
  apply wp_samples; [intros; repeat split; assumption|]. intros s' Hcode.
  (* calibration and reshape *)
  apply wp_lift.
  { intros e He. apply reshape_raise in He. subst e. split; assumption. }
  intros al Hal.
  (* the object *)
  constructor; cbn; try assumption; try reflexivity.
Qed.

Lemma surface_init_decoded (bs : list byte) (r : surface) :
  surface_init bs = Ok r -> decoded bs r.
Proof.
  unfold surface_init. pose proof (init_body_spec bs) as H.
  destruct (init_body bs) as [[r' s]|e]; [|discriminate].
  intros [= <-]. exact H.
Qed.

Lemma surface_init_failure (bs : list byte) (e : exn) :
  surface_init bs = Raise e -> failure bs e.
Proof.
  unfold surface_init. pose proof (init_body_spec bs) as H.
  destruct (init_body bs) as [[r' s]|e']; [discriminate|].
  intros [= <-]. exact H.
Qed.

(** ** Two runs side by side *)

Lemma slice_before lo hi b1 b2 off n :
  agree_outside lo hi b1 b2 -> (off + n <= lo)%nat ->
  slice off n b1 = slice off n b2.
Proof.
  intros (_ & Hf & _) Hle. unfold slice.
  rewrite !firstn_skipn_comm.
  replace (firstn (off + n) b1) with (firstn (off + n) (firstn lo b1))
    by (rewrite firstn_firstn; f_equal; lia).
  replace (firstn (off + n) b2) with (firstn (off + n) (firstn lo b2))
    by (rewrite firstn_firstn; f_equal; lia).
  now rewrite Hf.
Qed.

Lemma skipn_after lo hi b1 b2 off :
  agree_outside lo hi b1 b2 -> (hi <= off)%nat ->
  skipn off b1 = skipn off b2.
Proof.
  intros (_ & _ & Hs) Hle.
  replace off with ((off - hi) + hi)%nat by lia.
  rewrite <- !skipn_skipn. now rewrite Hs.
Qed.

Lemma slice_same_length lo hi b1 b2 off n :
  agree_outside lo hi b1 b2 ->
  List.length (slice off n b1) = List.length (slice off n b2).
Proof. intros (Hl & _). rewrite !length_slice. now rewrite Hl. Qed.

Lemma sim_same {A B} (R : B -> B -> Prop) (m : M A) (k1 k2 : A -> M B) s :
  (forall a s', sim R (k1 a s') (k2 a s')) ->
  sim R (bind m k1 s) (bind m k2 s).
Proof.
  intros H. unfold bind. destruct (m s) as [[a s']|e]; [apply H|reflexivity].
Qed.

(** A reader of [n] bytes run at the same offset of two files: the bytes
    it takes decide, up to [Q], what the continuations receive. *)
Lemma sim_reader {A B} (R : B -> B -> Prop) (Q : A -> A -> Prop)
  (m : M A) n g (k1 k2 : A -> M B) off off' b1 b2 :
  (forall s, m s = on_bytes n g s) ->
  off' = (n + off)%nat ->
  rel_res Q (g (slice off n b1)) (g (slice off n b2)) ->
  (forall a1 a2, Q a1 a2 ->
     sim R (k1 a1 (skipn off' b1)) (k2 a2 (skipn off' b2))) ->
  sim R (bind m k1 (skipn off b1)) (bind m k2 (skipn off b2)).
Proof.
  intros Hm -> Hg Hk. unfold bind. rewrite !Hm. unfold on_bytes.
  fold (slice off n b1) (slice off n b2). rewrite !skipn_skipn.
  destruct (g (slice off n b1)) as [a1|e1], (g (slice off n b2)) as [a2|e2];
    simpl in Hg; try contradiction.
  - now apply Hk.
  - exact Hg.
Qed.

Lemma rel_res_refl {A} (x : res A) : rel_res eq x x.
Proof. destruct x; reflexivity. Qed.

Lemma rel_res_eq {A} (x y : res A) : x = y -> rel_res eq x y.
Proof. intros ->. apply rel_res_refl. Qed.

Lemma unpack_i_rel l1 l2 :
  List.length l1 = List.length l2 ->
  rel_res (fun _ _ => True) (unpack_i l1) (unpack_i l2).
Proof.
  intros H. unfold unpack_i. rewrite H.
  now destruct (Nat.eqb (List.length l2) 4).
Qed.

Lemma unpack_f4_rel l1 l2 :
  List.length l1 = List.length l2 ->
  rel_res (fun _ _ => True) (unpack_f4 l1) (unpack_f4 l2).
Proof.
  intros H. unfold unpack_f4, unpack_f. rewrite H.
  now destruct (Nat.eqb (List.length l2) 4).
Qed.

Lemma sim_surface_init (R : surface -> surface -> Prop) b1 b2 :
  sim R (init_body b1) (init_body b2) ->
  rel_res R (surface_init b1) (surface_init b2).
Proof.
  unfold sim, surface_init.
  destruct (init_body b1) as [[r1 s1]|e1], (init_body b2) as [[r2 s2]|e2];
    simpl; auto.
Qed.

(** A statement of the fixed header that lies before the bytes where the
    two files differ: both runs read the same value. *)
Ltac same_step Hag :=
  lazymatch goal with
  | |- sim ?R (bind ?m ?k1 (skipn ?off ?b1)) (bind ?m ?k2 (skipn ?off ?b2)) =>
      let sp := reader_spec m in
      let n := reader_width m in
      let off' := eval vm_compute in (n + off)%nat in
      apply (sim_reader R eq m n _ k1 k2 off off' b1 b2 sp eq_refl);
      [ apply rel_res_eq;
        rewrite (slice_before _ _ b1 b2 off n Hag) by lia; reflexivity
      | let a := fresh "v" in intros a ? <-; cbv beta ]
  end.

(** A statement that reads inside the range where the files differ; [lem]
    relates what the two runs read. *)
Ltac window_step Hag lem :=
  lazymatch goal with
  | |- sim ?R (bind ?m ?k1 (skipn ?off ?b1)) (bind ?m ?k2 (skipn ?off ?b2)) =>
      let sp := reader_spec m in
      let n := reader_width m in
      let off' := eval vm_compute in (n + off)%nat in
      apply (sim_reader R (fun _ _ => True) m n _ k1 k2 off off' b1 b2 sp
               eq_refl);
      [ apply lem; apply (slice_same_length _ _ _ _ _ _ Hag)
      | let a := fresh "w" in let b := fresh "w" in intros a b _; cbv beta ]
  end.

(** ** The z-range bounds (C9) *)

(** C9: two files of the same length that differ only in the eight bytes
    of [zMin] and [zMax] (offsets 100 to 107) are decoded alike: both raise
    the same exception, or both give an object, with the same [points],
    [pointsAligned], [xAxis] and [yAxis]. *)
Theorem zrange_not_used (b1 b2 : list byte) :
  agree_outside 100 108 b1 b2 ->
  rel_res same_arrays (surface_init b1) (surface_init b2).
Proof.
  intros Hag. apply sim_surface_init.
  change (init_body b1) with (init_body (skipn 0 b1)).
  change (init_body b2) with (init_body (skipn 0 b2)).
  unfold init_body.
  do 15 (same_step Hag).
  do 2 (window_step Hag unpack_i_rel).
  rewrite (skipn_after _ _ _ _ 108 Hag) by lia.
  repeat (apply sim_same; intros).
  unfold ret, sim. simpl. repeat split.
Qed.

Lemma zrange_not_used_witness :
  agree_outside 100 108 example_file example_file_zrange /\
  example_file <> example_file_zrange /\
  rel_res same_arrays (surface_init example_file)
          (surface_init example_file_zrange).
Proof.
  assert (H : agree_outside 100 108 example_file example_file_zrange)
    by (repeat split; vm_compute; reflexivity).
  split; [exact H|]. split; [vm_compute; discriminate|].
  exact (zrange_not_used example_file example_file_zrange H).
Defined.

(** ** The signature (C1) *)

(** C1, refuted: whatever 12 bytes the expected magic is, some file that
    does not start with them is decoded into an object. *)
Lemma signature_not_checked :
  ~ exists magic : list byte,
      forall bs, firstn 12 bs <> magic -> exists e, surface_init bs = Raise e.
Proof.
  intros [magic H].
  assert (Ha : firstn 12 example_file <> magic -> False).
  { intros Hne. destruct (H _ Hne) as [e He]. vm_compute in He. discriminate. }
  assert (Hb : firstn 12 example_file_unsigned <> magic -> False).
  { intros Hne. destruct (H _ Hne) as [e He]. vm_compute in He. discriminate. }
  apply Ha. intros Ea. apply Hb. intros Eb.
  rewrite <- Eb in Ea. vm_compute in Ea. discriminate.
Qed.

(** C1, amended: the first 12 bytes are stored as the signature and never
    compared with anything.  Two files of the same length that differ only
    in these bytes, ASCII in both, are decoded alike: both raise the same
    exception, or both give an object, each with its own 12 bytes as
    signature and with every other attribute the same. *)
Theorem signature_stored_unchecked (b1 b2 : list byte) :
  agree_outside 0 12 b1 b2 ->
  forallb is_ascii (slice 0 12 b1) = true ->
  forallb is_ascii (slice 0 12 b2) = true ->
  rel_res (fun r1 r2 =>
             signature r1 = string_of_list_byte (slice 0 12 b1) /\
             r2 = with_signature (string_of_list_byte (slice 0 12 b2)) r1)
          (surface_init b1) (surface_init b2).
Proof.
  intros Hag A1 A2. apply sim_surface_init.
  change (init_body b1) with (init_body (skipn 0 b1)).
  change (init_body b2) with (init_body (skipn 0 b2)).
  unfold init_body.
  lazymatch goal with
  | |- sim ?R (bind ?m ?k1 _) (bind ?m ?k2 _) =>
      apply (sim_reader R
               (fun t1 t2 => t1 = string_of_list_byte (slice 0 12 b1) /\
                             t2 = string_of_list_byte (slice 0 12 b2))
               m 12%nat _ k1 k2 0%nat 12%nat b1 b2 (read_text_spec 12)
               eq_refl)
  end.
  { unfold decode_text. rewrite A1, A2. simpl. now split. }
  intros t1 t2 [-> ->]. cbv beta.
  rewrite (skipn_after _ _ _ _ 12 Hag) by lia.
  repeat (apply sim_same; intros).
  unfold ret, sim. simpl. split; reflexivity.
Qed.

Lemma signature_stored_unchecked_witness :
  rel_res (fun r1 r2 =>
             signature r1 = "DIGITAL SURF"%string /\
             r2 = with_signature "NOT A SURF!!"%string r1)
          (surface_init example_file) (surface_init example_file_unsigned).
Proof.
  exact (signature_stored_unchecked example_file example_file_unsigned
           ltac:(repeat split; vm_compute; reflexivity)
           ltac:(vm_compute; reflexivity) ltac:(vm_compute; reflexivity)).
Defined.

(** ** Arrays *)

Lemma slice_skipn (a n off : nat) (bs : list byte) :
  slice a n (skipn off bs) = slice (a + off) n bs.
Proof. unfold slice. now rewrite skipn_skipn. Qed.

Lemma length_take_items (w num : nat) : forall s,
  List.length (take_items w num s) = num.
Proof. induction num as [|k IH]; intros s; simpl; [|rewrite IH]; reflexivity. Qed.

(** Item [k] of a sample block is read from the [w] bytes at [k * w]. *)
Lemma nth_take_items (w num : nat) : forall s k,
  (k < num)%nat ->
  nth_error (take_items w num s) k = Some (int_signed w (slice (k * w) w s)).
Proof.
  induction num as [|n IH]; intros s k Hk; [lia|].
  destruct k as [|k]; simpl.
  - reflexivity.
  - rewrite IH by lia. rewrite slice_skipn.
    now rewrite (Nat.add_comm (k * w) w).
Qed.

Lemma fromfile_items_take (w : nat) (count : Z) (s : list byte) :
  fromfile_items w count s = take_items w (fromfile_count w count s) s.
Proof. reflexivity. Qed.

Lemma length_fromfile_items (w : nat) (count : Z) (s : list byte) :
  List.length (fromfile_items w count s) = fromfile_count w count s.
Proof. rewrite fromfile_items_take. apply length_take_items. Qed.

(** With [count] items in the file, [fromfile] delivers [count] items. *)
Lemma fromfile_count_enough (w : nat) (count : Z) (s : list byte) :
  (0 < w)%nat -> 0 <= count ->
  (Z.to_nat count * w <= List.length s)%nat ->
  fromfile_count w count s = Z.to_nat count.
Proof.
  intros Hw Hc Hlen. unfold fromfile_count.
  destruct (Z.ltb_spec count 0); [lia|].
  apply Nat.min_l. apply Nat.div_le_lower_bound; lia.
Qed.

Lemma length_scale (l : list Z) (sp ra : float) :
  List.length (scale l sp ra) = List.length l.
Proof. unfold scale. apply length_map. Qed.

Lemma nth_scale (l : list Z) (sp ra : float) (k : nat) :
  nth_error (scale l sp ra) k =
  option_map (fun z => fdiv (fmul (float_of_Z z) sp) ra) (nth_error l k).
Proof. unfold scale. apply nth_error_map. Qed.

Lemma length_range (n : Z) : List.length (range n) = Z.to_nat n.
Proof. unfold range. now rewrite length_map, length_seq. Qed.

Lemma nth_range (n : Z) (k : nat) :
  (k < Z.to_nat n)%nat -> nth_error (range n) k = Some (Z.of_nat k).
Proof.
  intros Hk. unfold range. rewrite nth_error_map.
  rewrite nth_error_seq. destruct (Nat.ltb_spec k (Z.to_nat n)); [|lia].
  reflexivity.
Qed.

Lemma reshape_cells a r c al : reshape a r c = Ok al -> cells al = a.
Proof.
  unfold reshape.
  repeat match goal with
         | |- context [if ?b then _ else _] => destruct b
         end; intros [= <-]; reflexivity.
Qed.

(** With two non-negative dimensions the reshape checks the size and keeps
    the shape it was given. *)
Lemma reshape_nonneg a r c al :
  reshape a r c = Ok al -> 0 <= r -> 0 <= c ->
  nrows al = r /\ ncols al = c /\ r * c = Z.of_nat (List.length a).
Proof.
  unfold reshape. intros H Hr Hc.
  destruct (Z.ltb_spec r 0); [lia|]. destruct (Z.ltb_spec c 0); [lia|].
  destruct (Z.eqb_spec (r * c) (Z.of_nat (List.length a))); [|discriminate].
  injection H as <-. now repeat split.
Qed.

(** The success and the shape of a reshape depend on the size alone. *)
Lemma reshape_rel a1 a2 r c :
  List.length a1 = List.length a2 ->
  rel_res (fun x y => nrows x = nrows y /\ ncols x = ncols y)
          (reshape a1 r c) (reshape a2 r c).
Proof.
  intros H. unfold reshape. rewrite H.
  repeat match goal with
         | |- context [if ?b then _ else _] => destruct b
         end; simpl; auto.
Qed.

(** ** Floats *)

Lemma fdiv_by_zero (x y : float) :
  is_zero y = true -> is_finite (fdiv x y) = false.
Proof. destruct y; try discriminate. intros _. now destruct x. Qed.

Lemma origin_is_zero (sp ra : float) :
  is_finite sp = true -> is_zero ra = false -> is_nan ra = false ->
  is_zero (fdiv (fmul (float_of_Z 0) sp) ra) = true.
Proof.
  intros Hsp Hz Hn.
  destruct sp; try discriminate; destruct ra; try discriminate; reflexivity.
Qed.

(** ** Labels *)

Lemma split_from_nonempty (s : string) : forall tok,
  Forall (fun t => t <> EmptyString) (split_from tok s).
Proof.
  induction s as [|c s IH]; intros tok; simpl.
  - destruct tok; simpl; [constructor|]. constructor; [discriminate|constructor].
  - destruct (isspace c).
    + destruct tok; simpl; [apply IH|]. constructor; [discriminate|apply IH].
    + apply IH.
Qed.

Lemma split_from_blank (l : list byte) :
  forallb (fun b => isspace (ascii_of_byte b)) l = true ->
  split_from EmptyString (string_of_list_byte l) = [].
Proof.
  unfold string_of_list_byte.
  induction l as [|b l IH]; simpl; [reflexivity|].
  intros H. apply andb_prop in H. destruct H as [Hb Hl].
  rewrite Hb. simpl. now apply IH.
Qed.

(** A label that was read is a token: it is not empty. *)
Lemma decode_label_nonempty (l : list byte) (t : string) :
  decode_label l = Ok t -> t <> EmptyString.
Proof.
  unfold decode_label. destruct (decode_text l) as [s|]; [|discriminate].
  pose proof (split_from_nonempty s EmptyString) as H. unfold split.
  destruct (split_from EmptyString s) as [|x r]; [discriminate|].
  intros [= <-]. now inversion H.
Qed.

(** A field of whitespace has no token to give. *)
Lemma decode_label_blank (l : list byte) :
  forallb (fun b => isspace (ascii_of_byte b)) l = true ->
  exists e, decode_label l = Raise e.
Proof.
  intros H. unfold decode_label, decode_text.
  destruct (forallb is_ascii l); [|eauto].
  unfold split. rewrite (split_from_blank l H). simpl. eauto.
Qed.

Lemma int_from_bytes_nonneg (l : list byte) : 0 <= int_from_bytes l.
Proof.
  induction l as [|b l IH]; cbn [int_from_bytes]; [lia|].
  pose proof (N2Z.is_nonneg (Byte.to_N b)). lia.
Qed.

(** ** Short files (C7) *)

(** C7, refuted: a file shorter than the 512-byte header is decoded into an
    object whose last two text attributes are silently empty. *)
Lemma short_header_accepted :
  List.length truncated_file = 486%nat /\
  exists r, surface_init truncated_file = Ok r /\
            tempStepUnit r = EmptyString /\ tempAxisName r = EmptyString.
Proof.
  split; [vm_compute; reflexivity|].
  eexists. split; [vm_compute; reflexivity|]. split; reflexivity.
Qed.

(** C7, amended: every file shorter than 486 bytes, that is, one that ends
    before the last 4-byte field of the fixed header is complete, makes the
    constructor raise, with an exception of one of the field reads
    ([struct.error], [IndexError] or [UnicodeDecodeError]); no object is
    produced. *)
Theorem short_file_fails (bs : list byte) :
  (List.length bs < 486)%nat ->
  exists e, surface_init bs = Raise e /\ early e.
Proof.
  intros Hlen. destruct (surface_init bs) as [r|e] eqn:E.
  - apply surface_init_decoded in E. pose proof (d_length _ _ E) as Hl. lia.
  - exists e. split; [reflexivity|].
    apply surface_init_failure in E.
    destruct e; simpl in *; try exact I; lia.
Qed.

Lemma short_file_fails_witness :
  exists e, surface_init (firstn 300 example_file) = Raise e /\ early e.
Proof.
  apply (short_file_fails (firstn 300 example_file)).
  apply Nat.ltb_lt. vm_compute. reflexivity.
Defined.

(** ** The comment and the private block (C8) *)

(** C8, refuted: an object whose comment is shorter than [commentSize]. *)
Lemma comment_shorter_than_size :
  exists r, surface_init comment_cut_file = Ok r /\
            commentSize r = 5 /\ comment r = EmptyString.
Proof. eexists. split; [vm_compute; reflexivity|]. split; reflexivity. Qed.

(** C8, amended: on every object, [private] is assigned exactly when
    [privateSize] is not zero; the comment has [commentSize] characters, or
    as many as the file still holds after the 512-byte header when that is
    fewer, and the private block has [privateSize] characters, or as many as
    the file holds after the comment.  When the file holds the whole trailer
    both have exactly their announced sizes. *)
Theorem trailer_blocks (bs : list byte) (r : surface) :
  surface_init bs = Ok r ->
  (private r = None <-> privateSize r = 0) /\
  String.length (comment r) =
    Nat.min (Z.to_nat (commentSize r)) (List.length bs - 512) /\
  (forall p, private r = Some p ->
     String.length p =
       Nat.min (Z.to_nat (privateSize r))
               (List.length bs - (Z.to_nat (commentSize r) + 512))) /\
  ((sample_offset r <= List.length bs)%nat ->
     Z.of_nat (String.length (comment r)) = commentSize r /\
     forall p, private r = Some p ->
               Z.of_nat (String.length p) = privateSize r).
Proof.
  intros H. apply surface_init_decoded in H.
  pose proof (d_comment _ _ H) as Hc. apply decode_text_ok in Hc.
  destruct Hc as [_ Hc].
  pose proof (d_private _ _ H) as Hp.
  pose proof (int_from_bytes_nonneg (slice 334 2 bs)) as Hc0.
  rewrite <- (d_commentSize _ _ H) in Hc0.
  pose proof (int_from_bytes_nonneg (slice 336 2 bs)) as Hp0.
  rewrite <- (d_privateSize _ _ H) in Hp0.
  assert (Lc : String.length (comment r) =
               Nat.min (Z.to_nat (commentSize r)) (List.length bs - 512))
    by (rewrite Hc, length_string_of_list_byte; apply length_slice).
  assert (Lp : forall p, private r = Some p ->
     String.length p =
       Nat.min (Z.to_nat (privateSize r))
               (List.length bs - (Z.to_nat (commentSize r) + 512))).
  { intros p Ep. rewrite Ep in Hp. destruct Hp as [_ Hp].
    apply decode_text_ok in Hp. destruct Hp as [_ ->].
    rewrite length_string_of_list_byte. apply length_slice. }
  repeat split.
  - intros Ep. now rewrite Ep in Hp.
  - intros Ez. destruct (private r); [|reflexivity]. now destruct Hp.
  - exact Lc.
  - exact Lp.
  - unfold sample_offset in *. lia.
  - intros p Ep. rewrite (Lp p Ep). unfold sample_offset in *. lia.
Qed.

Lemma trailer_blocks_witness :
  exists r, surface_init trailer_file = Ok r /\
            comment r = "abc"%string /\ private r = Some "pq"%string /\
            (private r = None <-> privateSize r = 0) /\
            String.length (comment r) = 3%nat.
Proof.
  destruct (surface_init trailer_file) as [r|e] eqn:E;
    [|vm_compute in E; discriminate].
  exists r. split; [reflexivity|].
  pose proof (trailer_blocks trailer_file r E) as (Hiff & Hlen & _).
  assert (Er : Ok r = surface_init trailer_file) by now rewrite E.
  vm_compute in Er. injection Er as ->.
  repeat split; solve [reflexivity | apply Hiff].
Defined.

(** ** Labels without a token (C10) *)

(** The nine labels of an object are tokens: none of them is empty. *)
Lemma labels_nonempty (bs : list byte) (r : surface) :
  surface_init bs = Ok r ->
  xName r <> EmptyString /\ yName r <> EmptyString /\
  zName r <> EmptyString /\ xStepUnit r <> EmptyString /\
  yStepUnit r <> EmptyString /\ zStepUnit r <> EmptyString /\
  xLengthUnit r <> EmptyString /\ yLengthUnit r <> EmptyString /\
  zLengthUnit r <> EmptyString.
Proof.
  intros H. apply surface_init_decoded in H.
  repeat split; eapply decode_label_nonempty;
    [ apply (d_xName _ _ H) | apply (d_yName _ _ H) | apply (d_zName _ _ H)
    | apply (d_xStepUnit _ _ H) | apply (d_yStepUnit _ _ H)
    | apply (d_zStepUnit _ _ H) | apply (d_xLengthUnit _ _ H)
    | apply (d_yLengthUnit _ _ H) | apply (d_zLengthUnit _ _ H) ].
Qed.

(** C10: when one of the nine 16-byte label fields, the [k]-th of them at
    offset [132 + 16 * k], holds nothing but whitespace, the constructor
    raises and no object is produced; and the labels of an object are never
    empty. *)
Theorem blank_label_fails (bs : list byte) :
  (forall k, (k < 9)%nat -> blank (slice (132 + 16 * k) 16 bs) = true ->
             exists e, surface_init bs = Raise e) /\
  (forall r, surface_init bs = Ok r ->
     xName r <> EmptyString /\ yName r <> EmptyString /\
     zName r <> EmptyString /\ xStepUnit r <> EmptyString /\
     yStepUnit r <> EmptyString /\ zStepUnit r <> EmptyString /\
     xLengthUnit r <> EmptyString /\ yLengthUnit r <> EmptyString /\
     zLengthUnit r <> EmptyString).
Proof.
  split; [|apply labels_nonempty].
  intros k Hk Hb.
  destruct (surface_init bs) as [r|e] eqn:E; [exfalso|eauto].
  apply surface_init_decoded in E.
  apply decode_label_blank in Hb. destruct Hb as [e He].
  do 9 (destruct k as [|k];
        [ cbn [Nat.add Nat.mul] in He;
          first [ rewrite (d_xName _ _ E) in He
                | rewrite (d_yName _ _ E) in He
                | rewrite (d_zName _ _ E) in He
                | rewrite (d_xStepUnit _ _ E) in He
                | rewrite (d_yStepUnit _ _ E) in He
                | rewrite (d_zStepUnit _ _ E) in He
                | rewrite (d_xLengthUnit _ _ E) in He
                | rewrite (d_yLengthUnit _ _ E) in He
                | rewrite (d_zLengthUnit _ _ E) in He ];
          discriminate He | ]).
  lia.
Qed.

Lemma blank_label_fails_witness :
  blank (slice 132 16 blank_label_file) = true /\
  (exists e, surface_init blank_label_file = Raise e) /\
  surface_init blank_label_file = Raise IndexError.
Proof.
  split; [vm_compute; reflexivity|]. split; [|vm_compute; reflexivity].
  apply (proj1 (blank_label_fails blank_label_file) 0%nat); [lia|].
  vm_compute. reflexivity.
Defined.

(** ** Files whose fields can all be read *)

Lemma decode_text_ascii (l : list byte) :
  forallb is_ascii l = true -> decode_text l = Ok (string_of_list_byte l).
Proof. intros H. unfold decode_text. now rewrite H. Qed.

Lemma split_from_nil_tok (s : string) : forall tok,
  split_from tok s = [] -> tok = EmptyString.
Proof.
  induction s as [|c s IH]; intros tok; simpl.
  - destruct tok; simpl; [reflexivity|discriminate].
  - destruct (isspace c).
    + destruct tok; simpl; [reflexivity|discriminate].
    + intros H. apply IH in H. destruct tok; discriminate H.
Qed.

Lemma split_from_nil_blank (l : list byte) : forall tok,
  split_from tok (string_of_list_byte l) = [] -> blank l = true.
Proof.
  unfold string_of_list_byte, blank.
  induction l as [|b l IH]; intros tok; simpl; [reflexivity|].
  destruct (isspace (ascii_of_byte b)); simpl.
  - destruct tok; simpl; [apply IH|discriminate].
  - intros H. apply split_from_nil_tok in H. destruct tok; discriminate H.
Qed.

(** A label field can be read exactly when its bytes are ASCII and not all
    of them whitespace. *)
Lemma decode_label_token (l : list byte) :
  (exists t, decode_label l = Ok t) <->
  forallb is_ascii l = true /\ blank l = false.
Proof.
  split.
  - intros [t H]. split.
    + unfold decode_label, decode_text in H.
      now destruct (forallb is_ascii l).
    + destruct (blank l) eqn:B; [|reflexivity].
      destruct (decode_label_blank l B) as [e He]. congruence.
  - intros [Ha Hb]. unfold decode_label. rewrite (decode_text_ascii l Ha).
    unfold split.
    destruct (split_from EmptyString (string_of_list_byte l)) as [|t r] eqn:E.
    + apply split_from_nil_blank in E. congruence.
    + simpl. eauto.
Qed.

Lemma unpack_i_full (off : nat) (bs : list byte) :
  (off + 4 <= List.length bs)%nat -> exists v, unpack_i (slice off 4 bs) = Ok v.
Proof.
  intros H. unfold unpack_i. rewrite length_slice.
  replace (Nat.min 4 (List.length bs - off)) with 4%nat by lia.
  simpl. eauto.
Qed.

Lemma unpack_f_full (off : nat) (bs : list byte) :
  (off + 4 <= List.length bs)%nat -> exists v, unpack_f (slice off 4 bs) = Ok v.
Proof.
  intros H. unfold unpack_f. rewrite length_slice.
  replace (Nat.min 4 (List.length bs - off)) with 4%nat by lia.
  simpl. eauto.
Qed.

Lemma unpack_f4_full (off : nat) (bs : list byte) :
  (off + 4 <= List.length bs)%nat ->
  exists v, unpack_f4 (slice off 4 bs) = Ok v.
Proof.
  intros H. unfold unpack_f4.
  destruct (unpack_f_full off bs H) as [v ->]. eauto.
Qed.

Lemma early_failure_readable bs e :
  early e -> ~ readable bs -> failure_readable bs e.
Proof. destruct e; simpl; tauto. Qed.

(** A field that raised was not readable. *)
Ltac not_readable H :=
  let R := fresh "R" in
  intros R;
  first
    [ rewrite (decode_text_ascii _ (r_signature _ R)) in H; discriminate H
    | rewrite (decode_text_ascii _ (r_objectname _ R)) in H; discriminate H
    | rewrite (decode_text_ascii _ (r_operatorname _ R)) in H; discriminate H
    | rewrite (decode_text_ascii _ (r_clientZone _ R)) in H; discriminate H
    | rewrite (decode_text_ascii _ (r_tempStepUnit _ R)) in H; discriminate H
    | rewrite (decode_text_ascii _ (r_tempAxisName _ R)) in H; discriminate H
    | rewrite (decode_text_ascii _ (r_comment _ R)) in H; discriminate H
    | rewrite (decode_text_ascii _ (r_private _ R)) in H; discriminate H
    | lazymatch type of H with
      | unpack_i (slice ?off 4 ?bs) = _ =>
          destruct (unpack_i_full off bs) as [? ?];
          [pose proof (r_length _ R); lia | congruence]
      | unpack_f (slice ?off 4 ?bs) = _ =>
          destruct (unpack_f_full off bs) as [? ?];
          [pose proof (r_length _ R); lia | congruence]
      | unpack_f4 (slice ?off 4 ?bs) = _ =>
          destruct (unpack_f4_full off bs) as [? ?];
          [pose proof (r_length _ R); lia | congruence]
      | decode_label (slice ?off 16 ?bs) = _ =>
          let k := eval vm_compute in (Nat.div (off - 132) 16) in
          destruct (proj2 (decode_label_token _) (r_labels _ R k ltac:(lia)))
            as [? ?];
          cbn [Nat.add Nat.mul] in *; congruence
      end ].

(** One statement of the fixed header, keeping track of what was read. *)
Ltac readable_step :=
  lazymatch goal with
  | |- wp ?Qe ?Qo (bind ?m ?k (skipn ?off ?bs)) =>
      let sp := reader_spec m in
      let n := reader_width m in
      let off' := eval vm_compute in (n + off)%nat in
      apply (wp_reader Qe Qo m n _ k off off' bs sp eq_refl);
      [ let e := fresh "e" in let H := fresh "H" in let H' := fresh "H" in
        intros e H; first [ discriminate H | pose proof H as H' ];
        early_of H'; apply (early_failure_readable bs e H');
        not_readable H
      | let a := fresh "v" in let H := fresh "H" in
        intros a H; value_of H; cbv beta ]
  end.

Lemma init_body_readable (bs : list byte) :
  wp (failure_readable bs) (fun _ _ => readable bs) (init_body bs).
Proof.
  change (init_body bs) with (init_body (skipn 0 bs)).
  unfold init_body.
  do 58 readable_step.
  (* the comment *)
  lazymatch goal with
  | |- wp ?Qe ?Qo (bind (read_text ?n) ?k _) =>
      apply (wp_reader Qe Qo _ n _ k 512%nat (n + 512)%nat bs
               (read_text_spec n) eq_refl);
      [ intros e He; pose proof He as He';
        apply decode_text_raise in He';
        apply (early_failure_readable bs e He'); not_readable He
      | intros cm Hcm; cbv beta ]
  end.
  (* the private block *)
  apply wp_bind.
  assert (Hp : wp (failure_readable bs) (fun _ _ => readable bs)
                 ((if negb (int_from_bytes (slice 336 2 bs) =? 0)
                   then s <- read_text
                               (Z.to_nat (int_from_bytes (slice 336 2 bs))) ;;
                        ret (Some s)
                   else ret None)
                    (skipn (Z.to_nat (int_from_bytes (slice 334 2 bs)) + 512)
                           bs))).
  { assert (Rr : forallb is_ascii
                   (slice (Z.to_nat (int_from_bytes (slice 334 2 bs)) + 512)
                      (Z.to_nat (int_from_bytes (slice 336 2 bs))) bs) = true
                 -> readable bs).
    { intros Hpriv.
      repeat match goal with
             | H : decode_text _ = Ok _ |- _ =>
                 apply decode_text_ok in H; destruct H as [H _]
             end.
      constructor; try assumption.
      - match goal with
        | H : unpack_f4 (slice 482 4 bs) = Ok _ |- _ =>
            apply unpack_f4_ok in H; destruct H as (x & _ & _ & H);
            apply slice_full in H; lia
        end.
      - intros k Hk.
        do 9 (destruct k as [|k];
              [cbn [Nat.add Nat.mul]; apply decode_label_token; eauto|]).
        lia. }
    destruct (Z.eqb_spec (int_from_bytes (slice 336 2 bs)) 0) as [Ez|_];
      cbn [negb].
    - apply Rr. rewrite Ez. reflexivity.
    - apply (wp_reader _ _ _ (Z.to_nat (int_from_bytes (slice 336 2 bs))) _ _
               _ (Z.to_nat (int_from_bytes (slice 336 2 bs))
                  + (Z.to_nat (int_from_bytes (slice 334 2 bs)) + 512))%nat
               bs (read_text_spec _) eq_refl).
      + intros e He. pose proof He as He'. apply decode_text_raise in He'.
        apply (early_failure_readable bs e He'). not_readable He.
      + intros p Hpv. apply decode_text_ok in Hpv. simpl. now apply Rr. }
  destruct ((if negb (int_from_bytes (slice 336 2 bs) =? 0)
             then s <- read_text
                         (Z.to_nat (int_from_bytes (slice 336 2 bs))) ;;
                  ret (Some s)
             else ret None)
              (skipn (Z.to_nat (int_from_bytes (slice 334 2 bs)) + 512) bs))
    as [[a s']|e]; simpl in Hp |- *; [|exact Hp].
  (* the sample block, calibration and reshape *)
  apply wp_samples; [intros; exact Hp|]. intros s'' _.
  apply wp_lift.
  - intros e He. apply reshape_raise in He. subst e. exact Hp.
  - intros al _. exact Hp.
Qed.

Lemma surface_init_readable (bs : list byte) :
  match surface_init bs with
  | Ok _ => readable bs
  | Raise e => failure_readable bs e
  end.
Proof.
  unfold surface_init. pose proof (init_body_readable bs) as H.
  now destruct (init_body bs) as [[r s]|e].
Qed.

(** ** The sample width (C2) *)

Lemma sample_width_bytes (r : surface) :
  sizeOfPoints r = 16 \/ sizeOfPoints r = 32 ->
  Z.to_nat (sizeOfPoints r / 8) = 2%nat /\ sizeOfPoints r = 16 \/
  Z.to_nat (sizeOfPoints r / 8) = 4%nat /\ sizeOfPoints r = 32.
Proof. intros [->| ->]; [left|right]; split; reflexivity. Qed.

(** Sample [k] of an object, from the bytes of the file. *)
Lemma nth_points (bs : list byte) (r : surface) (k : nat) :
  surface_init bs = Ok r ->
  (k < List.length (points r))%nat ->
  let w := Z.to_nat (sizeOfPoints r / 8) in
  nth_error (points r) k =
  Some (calibrated r (int_signed w (slice (k * w + sample_offset r) w bs))).
Proof.
  intros H Hk w. apply surface_init_decoded in H.
  rewrite (d_points _ _ H) in *. rewrite length_scale in Hk.
  rewrite nth_scale. unfold raw_samples in *. fold w in Hk |- *.
  rewrite length_fromfile_items in Hk.
  rewrite fromfile_items_take, nth_take_items by exact Hk.
  rewrite slice_skipn. reflexivity.
Qed.

Lemma fromfile_count_fits (w : nat) (count : Z) (s : list byte) :
  (0 < w)%nat -> (fromfile_count w count s * w <= List.length s)%nat.
Proof.
  intros Hw. unfold fromfile_count.
  pose proof (Nat.Div0.mul_div_le (List.length s) w) as H.
  destruct (count <? 0); [lia|].
  pose proof (Nat.le_min_r (Z.to_nat count) (List.length s / w)). nia.
Qed.

(** The bytes of sample [k] of an object are all in the file. *)
Lemma sample_bytes (bs : list byte) (r : surface) (k : nat) :
  surface_init bs = Ok r ->
  (k < List.length (points r))%nat ->
  let w := Z.to_nat (sizeOfPoints r / 8) in
  List.length (slice (k * w + sample_offset r) w bs) = w.
Proof.
  intros H Hk w. apply surface_init_decoded in H.
  rewrite (d_points _ _ H), length_scale in Hk. unfold raw_samples in Hk.
  fold w in Hk. rewrite length_fromfile_items in Hk.
  assert (Hw : (0 < w)%nat)
    by (unfold w; destruct (d_width _ _ H) as [-> | ->]; vm_compute; lia).
  pose proof (fromfile_count_fits w (totalPoints r)
                (skipn (sample_offset r) bs) Hw) as Hfit.
  rewrite length_skipn in Hfit. rewrite length_slice. nia.
Qed.

Lemma int_signed_2 (b0 b1 : byte) :
  int_signed 2 [b0; b1]
  = twos_complement 16 (byte_value b0 + 256 * byte_value b1).
Proof.
  unfold int_signed, twos_complement, byte_value. cbn [int_from_bytes].
  change (2 ^ (8 * Z.of_nat 2 - 1)) with (2 ^ (16 - 1)).
  change (2 * 2 ^ (16 - 1)) with (2 ^ 16).
  now replace (Z.of_N (to_N b0) + 256 * (Z.of_N (to_N b1) + 256 * 0))
    with (Z.of_N (to_N b0) + 256 * Z.of_N (to_N b1)) by lia.
Qed.

Lemma int_signed_4 (b0 b1 b2 b3 : byte) :
  int_signed 4 [b0; b1; b2; b3]
  = twos_complement 32
      (byte_value b0 + 256 * byte_value b1 + 65536 * byte_value b2
       + 16777216 * byte_value b3).
Proof.
  unfold int_signed, twos_complement, byte_value. cbn [int_from_bytes].
  change (2 ^ (8 * Z.of_nat 4 - 1)) with (2 ^ (32 - 1)).
  change (2 * 2 ^ (32 - 1)) with (2 ^ 32).
  now replace (Z.of_N (to_N b0)
               + 256 * (Z.of_N (to_N b1)
                        + 256 * (Z.of_N (to_N b2)
                                 + 256 * (Z.of_N (to_N b3) + 256 * 0))))
    with (Z.of_N (to_N b0) + 256 * Z.of_N (to_N b1)
          + 65536 * Z.of_N (to_N b2) + 16777216 * Z.of_N (to_N b3)) by lia.
Qed.

(** C2, refuted: with a width code of 8 and a blank [xName] the exception
    is the [IndexError] of the label, raised before the width is looked
    at. *)
Lemma bad_width_other_exception :
  width_code width8_blank_file = 8 /\
  surface_init width8_blank_file = Raise IndexError /\
  surface_init width8_blank_file <> Raise AttributeError.
Proof. repeat split; vm_compute; (reflexivity || discriminate). Qed.

(** C2, amended: a file whose width code (the 2 bytes at offset 98) is
    neither 16 nor 32 makes the constructor raise and no object is
    produced.  The exception is that of the width, the read of the [points]
    attribute that no branch assigned, exactly when every field before the
    sample block can be read; otherwise it is the exception of the first
    field read that fails.  On an object the code is 16 or 32, and sample
    [k] is read from the 2, respectively 4, bytes at [k * 2], respectively
    [k * 4], of the sample block as a little-endian two's complement
    integer, then calibrated. *)
Theorem sample_width_selects (bs : list byte) :
  (width_code bs <> 16 /\ width_code bs <> 32 ->
   exists e, surface_init bs = Raise e /\
             (e = AttributeError <-> readable bs) /\
             (e <> AttributeError -> early e)) /\
  (forall r k, surface_init bs = Ok r ->
     (k < List.length (points r))%nat ->
     (width_code bs = 16 /\
      exists b0 b1,
        slice (k * 2 + sample_offset r) 2 bs = [b0; b1] /\
        nth_error (points r) k =
        Some (calibrated r
                (twos_complement 16
                   (byte_value b0 + 256 * byte_value b1)))) \/
     (width_code bs = 32 /\
      exists b0 b1 b2 b3,
        slice (k * 4 + sample_offset r) 4 bs = [b0; b1; b2; b3] /\
        nth_error (points r) k =
        Some (calibrated r
                (twos_complement 32
                   (byte_value b0 + 256 * byte_value b1
                    + 65536 * byte_value b2
                    + 16777216 * byte_value b3))))).
Proof.
  split.
  - intros [H16 H32].
    pose proof (surface_init_readable bs) as Hr.
    destruct (surface_init bs) as [r|e] eqn:E.
    + apply surface_init_decoded in E.
      pose proof (d_width _ _ E) as Hw.
      rewrite (d_sizeOfPoints _ _ E) in Hw. tauto.
    + exists e. split; [reflexivity|]. apply surface_init_failure in E.
      destruct e; simpl in Hr, E |- *;
        (split; [split; intros Hx; [discriminate Hx || exact Hr | tauto]|]);
        intros Hx; solve [exact I | congruence | tauto].
  - intros r k H Hk. pose proof (surface_init_decoded _ _ H) as D.
    pose proof (d_sizeOfPoints _ _ D) as Hs.
    pose proof (nth_points bs r k H Hk) as Hn.
    pose proof (sample_bytes bs r k H Hk) as Hl.
    cbv zeta in Hn, Hl.
    destruct (sample_width_bytes r (d_width _ _ D)) as [[Hw Hc]|[Hw Hc]];
      rewrite Hw in Hn, Hl.
    + left. split; [congruence|].
      destruct (slice (k * 2 + sample_offset r) 2 bs)
        as [|b0 [|b1 [|b2 l]]]; try discriminate Hl.
      exists b0, b1. split; [reflexivity|]. now rewrite <- int_signed_2.
    + right. split; [congruence|].
      destruct (slice (k * 4 + sample_offset r) 4 bs)
        as [|b0 [|b1 [|b2 [|b3 [|b4 l]]]]]; try discriminate Hl.
      exists b0, b1, b2, b3. split; [reflexivity|].
      now rewrite <- int_signed_4.
Qed.

Lemma sample_width_selects_witness :
  (surface_init width8_file = Raise AttributeError /\
   readable width8_file) /\
  (exists r, surface_init negative16_file = Ok r /\
             nth_error (points r) 1 = Some (calibrated r (-20))) /\
  (exists r, surface_init example_file32 = Ok r /\
             nth_error (points r) 1 = Some (calibrated r (-20))).
Proof.
  split; [|split].
  - destruct (proj1 (sample_width_selects width8_file)) as (e & E & Hr & _).
    { split; vm_compute; discriminate. }
    assert (Ee : e = AttributeError)
      by (vm_compute in E; now injection E as <-).
    subst e. split; [exact E | now apply Hr].
  - destruct (surface_init negative16_file) as [r|e] eqn:E;
      [|vm_compute in E; discriminate].
    exists r. split; [reflexivity|].
    assert (Er : Ok r = surface_init negative16_file) by now rewrite E.
    vm_compute in Er.
    assert (Hlen : List.length (points r) = 4%nat)
      by (injection Er as ->; reflexivity).
    assert (Hoff : sample_offset r = 512%nat)
      by (injection Er as ->; reflexivity).
    destruct (proj2 (sample_width_selects negative16_file) r 1%nat E)
      as [(_ & b0 & b1 & Hb & Hp)|(Hc & _)];
      [lia | | vm_compute in Hc; discriminate].
    rewrite Hoff in Hb. vm_compute in Hb. injection Hb as <- <-.
    rewrite Hp. reflexivity.
  - destruct (surface_init example_file32) as [r|e] eqn:E;
      [|vm_compute in E; discriminate].
    exists r. split; [reflexivity|].
    assert (Er : Ok r = surface_init example_file32) by now rewrite E.
    vm_compute in Er.
    assert (Hlen : List.length (points r) = 4%nat)
      by (injection Er as ->; reflexivity).
    assert (Hoff : sample_offset r = 512%nat)
      by (injection Er as ->; reflexivity).
    destruct (proj2 (sample_width_selects example_file32) r 1%nat E)
      as [(Hc & _)|(_ & b0 & b1 & b2 & b3 & Hb & Hp)];
      [lia | vm_compute in Hc; discriminate |].
    rewrite Hoff in Hb. vm_compute in Hb. injection Hb as <- <- <- <-.
    rewrite Hp. reflexivity.
Defined.

(** ** The shape of the grid (C4, C5) *)

Lemma decoded_ints (bs : list byte) (r : surface) :
  decoded bs r ->
  xPoints r = file_int 108 bs /\ yPoints r = file_int 112 bs /\
  totalPoints r = file_int 116 bs.
Proof.
  intros D.
  pose proof (d_xPoints _ _ D) as Hx. apply unpack_i_ok in Hx.
  pose proof (d_yPoints _ _ D) as Hy. apply unpack_i_ok in Hy.
  pose proof (d_totalPoints _ _ D) as Ht. apply unpack_i_ok in Ht.
  unfold file_int. tauto.
Qed.

(** The samples read are as many as the grid has cells. *)
Lemma points_fill_grid (bs : list byte) (r : surface) :
  surface_init bs = Ok r -> 0 <= xPoints r -> 0 <= yPoints r ->
  Z.of_nat (List.length (points r)) = xPoints r * yPoints r.
Proof.
  intros H Hx Hy. apply surface_init_decoded in H.
  destruct (reshape_nonneg _ _ _ _ (d_pointsAligned _ _ H) Hy Hx)
    as (_ & _ & Hn). lia.
Qed.

(** When the file holds them, the samples read are [totalPoints]. *)
Lemma points_total (bs : list byte) (r : surface) :
  surface_init bs = Ok r -> holds_samples bs ->
  Z.of_nat (List.length (points r)) = totalPoints r.
Proof.
  intros H [Ht Hlen]. apply surface_init_decoded in H.
  destruct (decoded_ints _ _ H) as (_ & _ & Et).
  rewrite (d_points _ _ H), length_scale. unfold raw_samples.
  rewrite length_fromfile_items.
  unfold file_short in Hlen.
  rewrite <- (d_commentSize _ _ H), <- (d_privateSize _ _ H) in Hlen.
  rewrite <- (d_sizeOfPoints _ _ H), <- Et in Hlen. rewrite <- Et in Ht.
  rewrite fromfile_count_enough.
  - lia.
  - destruct (sample_width_bytes r (d_width _ _ H)) as [[-> _]|[-> _]]; lia.
  - exact Ht.
  - rewrite length_skipn. unfold sample_offset. lia.
Qed.

(** C4, refuted: an object with [totalPoints = 100] and a 2 x 2 grid. *)
Lemma total_points_unchecked :
  exists r, surface_init total100_file = Ok r /\
            totalPoints r <> xPoints r * yPoints r.
Proof. eexists. split; [vm_compute; reflexivity|]. vm_compute. discriminate. Qed.

(** C4, amended: the reshape compares [xPoints * yPoints] with the number of
    samples read, not with [totalPoints].  For a file that holds the
    [totalPoints] samples it announces and whose [xPoints] and [yPoints] are
    not negative, [totalPoints <> xPoints * yPoints] makes the constructor
    raise and no object is produced.  The exception is the [ValueError] of
    the reshape exactly when every field before the sample block can be
    read and the width code is 16 or 32; otherwise it is the exception of
    the field or of the width that fails before the reshape.  On every
    object with non-negative [xPoints] and [yPoints] the number of samples
    read is [xPoints * yPoints], and it is [totalPoints] when the file holds
    the samples it announces. *)
Theorem shape_checked_against_samples (bs : list byte) :
  (holds_samples bs -> 0 <= file_int 108 bs -> 0 <= file_int 112 bs ->
   file_int 116 bs <> file_int 108 bs * file_int 112 bs ->
   exists e, surface_init bs = Raise e /\
             (e = ValueError <->
              readable bs /\ (width_code bs = 16 \/ width_code bs = 32))) /\
  (forall r, surface_init bs = Ok r -> 0 <= xPoints r -> 0 <= yPoints r ->
     Z.of_nat (List.length (points r)) = xPoints r * yPoints r /\
     (holds_samples bs -> totalPoints r = xPoints r * yPoints r)).
Proof.
  assert (Hok : forall r, surface_init bs = Ok r ->
                  0 <= xPoints r -> 0 <= yPoints r ->
                  Z.of_nat (List.length (points r)) = xPoints r * yPoints r /\
                  (holds_samples bs -> totalPoints r = xPoints r * yPoints r)).
  { intros r H Hx Hy. pose proof (points_fill_grid bs r H Hx Hy) as Hn.
    split; [exact Hn|]. intros Hs.
    pose proof (points_total bs r H Hs). lia. }
  split; [|exact Hok].
  intros Hs Hx Hy Hne.
  pose proof (surface_init_readable bs) as Hr.
  destruct (surface_init bs) as [r|e] eqn:E.
  - exfalso.
    destruct (decoded_ints _ _ (surface_init_decoded _ _ E)) as (Ex & Ey & Et).
    rewrite <- Ex in Hx. rewrite <- Ey in Hy.
    destruct (Hok r eq_refl Hx Hy) as [_ Ht].
    specialize (Ht Hs). congruence.
  - exists e. split; [reflexivity|]. apply surface_init_failure in E.
    destruct e; simpl in Hr, E |- *;
      (split; intros Hq;
       [discriminate Hq || (split; [exact Hr | tauto])
       | reflexivity || tauto]).
Qed.

Lemma shape_checked_against_samples_witness :
  surface_init total5_file = Raise ValueError /\ readable total5_file.
Proof.
  destruct (proj1 (shape_checked_against_samples total5_file))
    as (e & E & Hr).
  - split; [vm_compute; discriminate|]. apply Nat.leb_le. vm_compute.
    reflexivity.
  - vm_compute. discriminate.
  - vm_compute. discriminate.
  - vm_compute. discriminate.
  - assert (Ee : e = ValueError) by (vm_compute in E; now injection E as <-).
    subst e. split; [exact E | now apply Hr].
Defined.

(** C5, refuted: with [yPoints = -1] the reshape infers the number of rows,
    and the grid of the object has shape (2, 2), not ([yPoints],
    [xPoints]). *)
Lemma grid_shape_inferred :
  exists r, surface_init wildcard_file = Ok r /\
            yPoints r = -1 /\ xPoints r = 2 /\
            nrows (pointsAligned r) = 2 /\ ncols (pointsAligned r) = 2.
Proof. eexists. split; [vm_compute; reflexivity|]. repeat split. Qed.

(** C5, amended: on every object whose [xPoints] and [yPoints] are not
    negative, the grid has shape ([yPoints], [xPoints]), and its cell
    [(j, i)] is the sample of index [j * xPoints + i], calibrated as
    [raw * zSpacing / zUnitRatio] in float64, the product first.  The file
    of the scenario ([xPoints = 2], [yPoints = 2], [totalPoints = 4], width
    16, [zSpacing = 1.0], [zUnitRatio = 2.0], samples 10, 20, 30, 40) gives
    the grid [[5.0, 10.0], [15.0, 20.0]]. *)
Theorem grid_cells_calibrated :
  (forall bs r, surface_init bs = Ok r -> 0 <= xPoints r -> 0 <= yPoints r ->
     nrows (pointsAligned r) = yPoints r /\
     ncols (pointsAligned r) = xPoints r /\
     forall j i, 0 <= j < yPoints r -> 0 <= i < xPoints r ->
       exists raw,
         nth_error (raw_samples bs r) (Z.to_nat (j * xPoints r + i))
           = Some raw /\
         cell (pointsAligned r) j i = Some (calibrated r raw)) /\
  (exists r, surface_init example_file = Ok r /\
     xPoints r = 2 /\ yPoints r = 2 /\ totalPoints r = 4 /\
     sizeOfPoints r = 16 /\
     zSpacing r = float_of_Z 1 /\ zUnitRatio r = float_of_Z 2 /\
     raw_samples example_file r = [10; 20; 30; 40] /\
     rows_of (pointsAligned r) =
       [[float_of_Z 5; float_of_Z 10]; [float_of_Z 15; float_of_Z 20]]).
Proof.
  split.
  - intros bs r H Hx Hy. pose proof (surface_init_decoded _ _ H) as D.
    destruct (reshape_nonneg _ _ _ _ (d_pointsAligned _ _ D) Hy Hx)
      as (Hr & Hc & Hn).
    pose proof (reshape_cells _ _ _ _ (d_pointsAligned _ _ D)) as Hcells.
    repeat split; [exact Hr | exact Hc |].
    intros j i Hj Hi. unfold cell. rewrite Hcells, Hc.
    rewrite (d_points _ _ D) in Hn |- *. rewrite length_scale in Hn.
    rewrite nth_scale.
    destruct (nth_error (raw_samples bs r) (Z.to_nat (j * xPoints r + i)))
      as [raw|] eqn:E.
    + exists raw. split; reflexivity.
    + apply nth_error_None in E. nia.
  - eexists. split; [vm_compute; reflexivity|].
    repeat split; vm_compute; reflexivity.
Qed.

Lemma grid_cells_calibrated_witness :
  exists r, surface_init example_file32 = Ok r /\
            nrows (pointsAligned r) = 2 /\ ncols (pointsAligned r) = 2 /\
            cell (pointsAligned r) 0 1 = Some (calibrated r (-20)).
Proof.
  pose proof (proj1 grid_cells_calibrated example_file32) as T.
  destruct (surface_init example_file32) as [r|e] eqn:E;
    [|vm_compute in E; discriminate].
  specialize (T r eq_refl). exists r. split; [reflexivity|].
  assert (Er : Ok r = surface_init example_file32) by now rewrite E.
  vm_compute in Er.
  assert (Hx : xPoints r = 2) by (injection Er as ->; reflexivity).
  assert (Hy : yPoints r = 2) by (injection Er as ->; reflexivity).
  assert (Hraw : raw_samples example_file32 r = [10; -20; 30; 40])
    by (injection Er as ->; vm_compute; reflexivity).
  rewrite Hx, Hy, Hraw in T.
  destruct T as (Hr & Hc & Hcell); [lia | lia |].
  split; [exact Hr|]. split; [exact Hc|].
  destruct (Hcell 0 1) as (raw & Hnth & Hcl); [lia | lia |].
  rewrite Hcl. injection Hnth as <-. reflexivity.
Defined.

(** ** The axes (C6) *)

(** C6, refuted: with [xUnitRatio = 0] the first cell of [xAxis] is
    [0 * xSpacing / 0], which is NaN and does not compare equal to 0. *)
Lemma axis_origin_nan :
  exists r x0, surface_init zero_xratio_file = Ok r /\
               nth_error (xAxis r) 0 = Some x0 /\
               SFeqb x0 (float_of_Z 0) = false.
Proof.
  eexists. eexists. split; [vm_compute; reflexivity|].
  split; reflexivity.
Qed.

Lemma nth_axis (n : Z) (sp ra : float) (k : Z) :
  0 <= k < n ->
  nth_error (scale (range n) sp ra) (Z.to_nat k) =
  Some (fdiv (fmul (float_of_Z k) sp) ra).
Proof.
  intros Hk. rewrite nth_scale, nth_range by lia.
  simpl. now rewrite Z2Nat.id by lia.
Qed.

(** C6, amended: on every object, [xAxis] has [xPoints] cells (none when
    [xPoints] is negative) and cell [k] is [k * xSpacing / xUnitRatio]
    computed in float64, the product first; likewise [yAxis] with
    [yPoints], [ySpacing] and [yUnitRatio].  The first cell of [xAxis]
    compares equal to 0 when [xSpacing] is finite and [xUnitRatio] is
    neither zero nor NaN. *)
Theorem axes_scaled (bs : list byte) (r : surface) :
  surface_init bs = Ok r ->
  List.length (xAxis r) = Z.to_nat (xPoints r) /\
  List.length (yAxis r) = Z.to_nat (yPoints r) /\
  (forall k, 0 <= k < xPoints r ->
     nth_error (xAxis r) (Z.to_nat k) =
     Some (fdiv (fmul (float_of_Z k) (xSpacing r)) (xUnitRatio r))) /\
  (forall j, 0 <= j < yPoints r ->
     nth_error (yAxis r) (Z.to_nat j) =
     Some (fdiv (fmul (float_of_Z j) (ySpacing r)) (yUnitRatio r))) /\
  (0 < xPoints r -> is_finite (xSpacing r) = true ->
   is_zero (xUnitRatio r) = false -> is_nan (xUnitRatio r) = false ->
   exists x0, nth_error (xAxis r) 0 = Some x0 /\
              SFeqb x0 (float_of_Z 0) = true).
Proof.
  intros H. apply surface_init_decoded in H.
  rewrite (d_xAxis _ _ H), (d_yAxis _ _ H).
  rewrite !length_scale, !length_range.
  repeat split.
  - intros k Hk. now apply nth_axis.
  - intros j Hj. now apply nth_axis.
  - intros Hx Hs Hz Hn. eexists. split.
    + apply (nth_axis (xPoints r) _ _ 0). lia.
    + pose proof (origin_is_zero _ _ Hs Hz Hn) as Hzero.
      destruct (fdiv _ _) as [[|]| | |]; try discriminate; reflexivity.
Qed.

Lemma axes_scaled_witness :
  exists r, surface_init example_file = Ok r /\
            List.length (xAxis r) = 2%nat /\
            nth_error (xAxis r) 1 = Some (float_of_Z 1).
Proof.
  destruct (surface_init example_file) as [r|e] eqn:E;
    [|vm_compute in E; discriminate].
  exists r. split; [reflexivity|].
  destruct (axes_scaled example_file r E) as (Hlen & _ & Hk & _).
  assert (Er : Ok r = surface_init example_file) by now rewrite E.
  vm_compute in Er. injection Er as ->.
  split; [exact Hlen|].
  pose proof (Hk 1 ltac:(split; vm_compute; [discriminate | reflexivity]))
    as H1.
  change (Z.to_nat 1) with 1%nat in H1. rewrite H1.
  vm_compute. reflexivity.
Defined.

(** ** The unit ratios (C3) *)

Lemma sim_lift {A B} (R : B -> B -> Prop) (Q : A -> A -> Prop)
  (x y : res A) (k1 k2 : A -> M B) s :
  rel_res Q x y ->
  (forall a b, Q a b -> sim R (k1 a s) (k2 b s)) ->
  sim R (bind (lift x) k1 s) (bind (lift y) k2 s).
Proof.
  intros Hxy Hk. unfold bind, lift.
  destruct x as [a|e], y as [b|e']; simpl in Hxy; try contradiction.
  - now apply Hk.
  - exact Hxy.
Qed.

Lemma rel_res_and {A} (R : A -> A -> Prop) (P : A -> Prop) (x y : res A) :
  rel_res R x y ->
  (forall a, x = Ok a -> P a) -> (forall a, y = Ok a -> P a) ->
  rel_res (fun a b => R a b /\ P a /\ P b) x y.
Proof.
  intros H Hx Hy. destruct x as [a|e], y as [b|e']; simpl in *; auto.
Qed.

Lemma scale_by_zero (l : list Z) (sp ra : float) :
  is_zero ra = true -> Forall (fun c => is_finite c = false) (scale l sp ra).
Proof.
  intros Hz. unfold scale. apply Forall_map, Forall_forall.
  intros z _. now apply fdiv_by_zero.
Qed.

Lemma decoded_divided_by_zero (bs : list byte) (r : surface) :
  surface_init bs = Ok r -> divided_by_zero r.
Proof.
  intros H. apply surface_init_decoded in H.
  unfold divided_by_zero.
  rewrite (reshape_cells _ _ _ _ (d_pointsAligned _ _ H)).
  rewrite (d_points _ _ H), (d_xAxis _ _ H), (d_yAxis _ _ H).
  repeat split; apply scale_by_zero.
Qed.

(** C3, refuted: with [zUnitRatio = 0] the constructor returns an object
    whose grid holds infinities. *)
Lemma grid_divided_by_zero :
  exists r, surface_init zero_zratio_file = Ok r /\
            is_zero (zUnitRatio r) = true /\
            cells (pointsAligned r) =
              [S754_infinity false; S754_infinity false;
               S754_infinity false; S754_infinity false].
Proof. eexists. split; [vm_compute; reflexivity|]. split; reflexivity. Qed.

(** C3, amended: no unit ratio is tested against zero.  Two files of the
    same length that differ only in the 12 bytes of [xUnitRatio],
    [yUnitRatio] and [zUnitRatio] (offsets 276 to 287) are decoded alike:
    both raise the same exception, or both give an object, with arrays of
    the same shapes.  On an object whose [zUnitRatio] is zero no cell of the
    grid is finite (each is an infinity or NaN), and likewise [xAxis] for
    [xUnitRatio] and [yAxis] for [yUnitRatio]. *)
Theorem ratio_unguarded (b1 b2 : list byte) :
  agree_outside 276 288 b1 b2 ->
  rel_res (fun r1 r2 =>
             same_shape r1 r2 /\ divided_by_zero r1 /\ divided_by_zero r2)
          (surface_init b1) (surface_init b2).
Proof.
  intros Hag.
  apply rel_res_and; [|apply decoded_divided_by_zero..].
  apply sim_surface_init.
  change (init_body b1) with (init_body (skipn 0 b1)).
  change (init_body b2) with (init_body (skipn 0 b2)).
  unfold init_body.
  do 32 (same_step Hag).
  do 3 (window_step Hag unpack_f4_rel).
  rewrite (skipn_after _ _ _ _ 288 Hag) by lia.
  repeat (apply sim_same; intros).
  apply (sim_lift _ (fun x y => nrows x = nrows y /\ ncols x = ncols y)).
  { apply reshape_rel. now rewrite !length_scale. }
  intros al1 al2 [Hr Hc].
  unfold ret, sim, same_shape. simpl. rewrite !length_scale.
  repeat split; assumption.
Qed.

Lemma ratio_unguarded_witness :
  agree_outside 276 288 example_file zero_zratio_file /\
  rel_res (fun r1 r2 =>
             same_shape r1 r2 /\ divided_by_zero r1 /\ divided_by_zero r2)
          (surface_init example_file) (surface_init zero_zratio_file).
Proof.
  assert (H : agree_outside 276 288 example_file zero_zratio_file)
    by (repeat split; vm_compute; reflexivity).
  split; [exact H|].
  exact (ratio_unguarded example_file zero_zratio_file H).
Defined.

(** ** Exactly the files that decode *)

Lemma rel_res_eq_inv {A} (x y : res A) : rel_res eq x y -> x = y.
Proof. destruct x, y; simpl; intros H; congruence || contradiction. Qed.




(** ** Bytes that are skipped, stored or never reached *)

Lemma skipped_rel (l1 l2 : list byte) :
  List.length l1 = List.length l2 ->
  rel_res (fun _ _ : list byte => True) (Ok l1) (Ok l2).
Proof. intros _. exact I. Qed.

(** Two runs on files that agree outside a range of the header, up to the
    first statement that reads inside the range: each statement reads the
    same value in both. *)
Ltac before_window Hag :=
  apply sim_surface_init;
  lazymatch goal with
  | |- sim _ (init_body ?b1) (init_body ?b2) =>
      change (init_body b1) with (init_body (skipn 0 b1));
      change (init_body b2) with (init_body (skipn 0 b2))
  end;
  unfold init_body;
  repeat (same_step Hag).

(** From offset [hi], where the range ends, the two cursors are the same. *)
Ltac after_window Hag hi :=
  rewrite (skipn_after _ _ _ _ hi Hag) by lia;
  repeat (apply sim_same; intros).

(** X2: the three reserved ranges of the header (4 bytes at offset 94, 12
    at 294, 10 at 324) are read and dropped: two files of the same length
    that differ only inside one of them give the same object, or raise the
    same exception. *)
Theorem reserved_bytes_ignored (b1 b2 : list byte) :
  agree_outside 94 98 b1 b2 \/ agree_outside 294 306 b1 b2 \/
  agree_outside 324 334 b1 b2 ->
  surface_init b1 = surface_init b2.
Proof.
  intros H. apply rel_res_eq_inv.
  destruct H as [Hag|[Hag|Hag]].
  - before_window Hag. window_step Hag skipped_rel.
    after_window Hag 98%nat. reflexivity.
  - before_window Hag. window_step Hag skipped_rel.
    after_window Hag 306%nat. reflexivity.
  - before_window Hag. window_step Hag skipped_rel.
    after_window Hag 334%nat. reflexivity.
Qed.

Lemma reserved_bytes_ignored_witness :
  example_file_reserved <> example_file /\
  surface_init example_file_reserved = surface_init example_file.
Proof.
  split; [vm_compute; discriminate|].
  apply reserved_bytes_ignored. left.
  repeat split; vm_compute; reflexivity.
Defined.

Lemma short_rel (l1 l2 : list byte) :
  List.length l1 = List.length l2 ->
  rel_res (fun _ _ : Z => True)
          (Ok (int_from_bytes l1)) (Ok (int_from_bytes l2)).
Proof. intros _. exact I. Qed.

(** A 2-byte or a rounded 4-byte field inside the range. *)
Ltac stored_step Hag :=
  first [ window_step Hag short_rel | window_step Hag unpack_f4_rel ].

(** X4: the numeric attributes that are only stored.  The codes at offsets
    12 to 19 and 80 to 89, [gaugeResolution], the three flags, the
    timestamps and [MeasurementDuration], and the offsets and temperature
    fields at 466 to 485 are never used after they are read (the axes are
    built without the offsets): two files of the same length that differ
    only inside one of these ranges raise the same exception or give
    objects with the same [points], [pointsAligned], [xAxis] and
    [yAxis]. *)
Theorem stored_fields_not_used (b1 b2 : list byte) :
  agree_outside 12 20 b1 b2 \/ agree_outside 80 94 b1 b2 \/
  agree_outside 288 294 b1 b2 \/ agree_outside 306 324 b1 b2 \/
  agree_outside 466 486 b1 b2 ->
  rel_res same_arrays (surface_init b1) (surface_init b2).
Proof.
  intros H. destruct H as [Hag|[Hag|[Hag|[Hag|Hag]]]].
  - before_window Hag. do 4 (stored_step Hag). after_window Hag 20%nat.
    unfold ret, sim. simpl. repeat split.
  - before_window Hag. do 6 (stored_step Hag). after_window Hag 94%nat.
    unfold ret, sim. simpl. repeat split.
  - before_window Hag. do 3 (stored_step Hag). after_window Hag 294%nat.
    unfold ret, sim. simpl. repeat split.
  - before_window Hag. do 8 (stored_step Hag). after_window Hag 324%nat.
    unfold ret, sim. simpl. repeat split.
  - before_window Hag. do 5 (stored_step Hag). after_window Hag 486%nat.
    unfold ret, sim. simpl. repeat split.
Qed.

Lemma stored_fields_not_used_witness :
  example_file_offsets <> example_file /\
  rel_res same_arrays (surface_init example_file_offsets)
          (surface_init example_file).
Proof.
  split; [vm_compute; discriminate|].
  apply stored_fields_not_used. do 4 right.
  repeat split; vm_compute; reflexivity.
Defined.

Lemma slice_app_prefix (off n : nat) (bs t : list byte) :
  (off + n <= List.length bs)%nat -> slice off n (bs ++ t) = slice off n bs.
Proof.
  intros H. unfold slice. rewrite skipn_app, firstn_app, length_skipn.
  replace (n - (List.length bs - off))%nat with 0%nat by lia.
  replace (off - List.length bs)%nat with 0%nat by lia.
  simpl. now rewrite app_nil_r.
Qed.

Lemma take_items_app (w num : nat) : forall l t : list byte,
  (num * w <= List.length l)%nat ->
  take_items w num (l ++ t) = take_items w num l.
Proof.
  induction num as [|k IH]; intros l t H; [reflexivity|].
  cbn [take_items]. cbn [Nat.mul] in H.
  rewrite firstn_app, skipn_app.
  replace (w - List.length l)%nat with 0%nat by lia.
  simpl firstn. rewrite app_nil_r. simpl skipn.
  rewrite IH by (rewrite length_skipn; lia). reflexivity.
Qed.

(** When the file holds [count] items, what follows them is not read. *)
Lemma fromfile_items_app (w : nat) (count : Z) (l t : list byte) :
  (0 < w)%nat -> 0 <= count -> (Z.to_nat count * w <= List.length l)%nat ->
  fromfile_items w count (l ++ t) = fromfile_items w count l.
Proof.
  intros Hw Hc Hl. rewrite !fromfile_items_take.
  rewrite !fromfile_count_enough by (try rewrite length_app; lia).
  now apply take_items_app.
Qed.

(** A reader run at the same offset of two files that hold the same bytes
    there. *)
Lemma sim_reader_eq {A B} (R : B -> B -> Prop)
  (m : M A) n g (k1 k2 : A -> M B) off off' b1 b2 :
  (forall s, m s = on_bytes n g s) ->
  off' = (n + off)%nat ->
  slice off n b1 = slice off n b2 ->
  (forall a, g (slice off n b2) = Ok a ->
     sim R (k1 a (skipn off' b1)) (k2 a (skipn off' b2))) ->
  sim R (bind m k1 (skipn off b1)) (bind m k2 (skipn off b2)).
Proof.
  intros Hm -> Hs Hk. unfold bind. rewrite !Hm. unfold on_bytes.
  fold (slice off n b1) (slice off n b2). rewrite !skipn_skipn, Hs.
  destruct (g (slice off n b2)) as [a|e]; [now apply Hk|reflexivity].
Qed.

(** A statement of the fixed header, run on a file and on the same file
    with bytes appended. *)
Ltac prefix_step Hlen :=
  lazymatch goal with
  | |- sim ?R (bind ?m ?k1 (skipn ?off (?bs ++ ?t)))
              (bind ?m ?k2 (skipn ?off ?bs)) =>
      let sp := reader_spec m in
      let n := reader_width m in
      let off' := eval vm_compute in (n + off)%nat in
      apply (sim_reader_eq R m n _ k1 k2 off off' (bs ++ t) bs sp eq_refl);
      [ apply slice_app_prefix; lia
      | let a := fresh "v" in let H := fresh "H" in
        intros a H; value_of H; cbv beta ]
  end.

Lemma sim_fromfile {B} (R : B -> B -> Prop) w count
  (k1 k2 : list Z -> M B) s1 s2 :
  fromfile_items w count s1 = fromfile_items w count s2 ->
  (forall l s1' s2', sim R (k1 l s1') (k2 l s2')) ->
  sim R (bind (fromfile w count) k1 s1) (bind (fromfile w count) k2 s2).
Proof.
  intros Hi Hk.
  destruct (fromfile_ok w count s1) as [s1' H1].
  destruct (fromfile_ok w count s2) as [s2' H2].
  unfold bind. rewrite H1, H2, Hi. apply Hk.
Qed.

Lemma sim_lift_any {A B} (R : B -> B -> Prop) (x : res A)
  (k1 k2 : A -> M B) s1 s2 :
  (forall a, sim R (k1 a s1) (k2 a s2)) ->
  sim R (bind (lift x) k1 s1) (bind (lift x) k2 s2).
Proof.
  intros Hk. unfold bind, lift. destruct x as [a|e]; [apply Hk|reflexivity].
Qed.

(** The statements after the sample block do not read the file. *)
Ltac off_file :=
  cbv beta;
  repeat first [ rewrite !bind_ret | apply sim_lift_any; intros ? ];
  exact eq_refl.

(** X3: when the file holds the [totalPoints >= 0] samples its header
    announces, nothing after them is read: appending bytes to the file
    changes neither the object nor the exception. *)
Theorem trailing_bytes_ignored (bs t : list byte) :
  holds_samples bs ->
  surface_init (bs ++ t) = surface_init bs.
Proof.
  intros [Htp Hlen]. apply rel_res_eq_inv, sim_surface_init.
  change (init_body (bs ++ t)) with (init_body (skipn 0 (bs ++ t))).
  change (init_body bs) with (init_body (skipn 0 bs)).
  unfold init_body. unfold file_short, file_int, width_code in *.
  do 58 (prefix_step Hlen).
  match goal with
  | H : unpack_i (slice 116 4 bs) = Ok ?v |- _ =>
      apply unpack_i_ok in H; destruct H as [_ H]; rewrite <- H in Htp, Hlen
  end.
  set (nc := Z.to_nat (int_from_bytes (slice 334 2 bs))) in *.
  set (psz := int_from_bytes (slice 336 2 bs)) in *.
  set (code := int_from_bytes (slice 98 2 bs)) in *.
  (* the comment *)
  lazymatch goal with
  | |- sim ?R (bind ?m ?k1 _) (bind ?m ?k2 _) =>
      apply (sim_reader_eq R m nc _ k1 k2 512%nat (nc + 512)%nat (bs ++ t) bs
               (read_text_spec nc) eq_refl);
      [ apply slice_app_prefix; lia | intros cm _; cbv beta ]
  end.
  (* the private block, then the sample block at [off] *)
  assert (Hsamples : forall (priv : option string) off,
             (Z.to_nat v7 * Z.to_nat (code / 8) + off
              <= List.length bs)%nat ->
             forall K : option (list Z) -> M surface,
             (forall x s1 s2, sim eq (K x s1) (K x s2)) ->
             sim eq
               (bind (if code =? 16
                      then p <- fromfile 2 v7 ;; ret (Some p)
                      else if code =? 32
                      then p <- fromfile 4 v7 ;; ret (Some p)
                      else ret None) K (skipn off (bs ++ t)))
               (bind (if code =? 16
                      then p <- fromfile 2 v7 ;; ret (Some p)
                      else if code =? 32
                      then p <- fromfile 4 v7 ;; ret (Some p)
                      else ret None) K (skipn off bs))).
  { intros _ off Hoff K HK.
    assert (Happ : skipn off (bs ++ t) = skipn off bs ++ t).
    { rewrite skipn_app. replace (off - List.length bs)%nat with 0%nat by lia.
      reflexivity. }
    rewrite Happ.
    destruct (Z.eqb_spec code 16) as [E|_];
      [|destruct (Z.eqb_spec code 32) as [E|_]].
    - rewrite E in Hoff. change (Z.to_nat (16 / 8)) with 2%nat in Hoff.
      rewrite !bind_assoc. apply sim_fromfile.
      + apply fromfile_items_app; [lia | exact Htp |].
        rewrite length_skipn. lia.
      + intros l s1 s2. rewrite !bind_ret. apply HK.
    - rewrite E in Hoff. change (Z.to_nat (32 / 8)) with 4%nat in Hoff.
      rewrite !bind_assoc. apply sim_fromfile.
      + apply fromfile_items_app; [lia | exact Htp |].
        rewrite length_skipn. lia.
      + intros l s1 s2. rewrite !bind_ret. apply HK.
    - rewrite !bind_ret. apply HK. }
  destruct (Z.eqb_spec psz 0) as [Ez|_]; cbn [negb].
  - rewrite !bind_ret. rewrite Ez in Hlen. cbn [Z.to_nat Nat.add] in Hlen.
    apply (Hsamples None); [lia|]. intros x s1 s2. off_file.
  - rewrite !bind_assoc.
    lazymatch goal with
    | |- sim ?R (bind ?m ?k1 _) (bind ?m ?k2 _) =>
        apply (sim_reader_eq R m (Z.to_nat psz) _ k1 k2 (nc + 512)%nat
                 (Z.to_nat psz + (nc + 512))%nat (bs ++ t) bs
                 (read_text_spec _) eq_refl);
        [ apply slice_app_prefix; lia | intros pv _; cbv beta ]
    end.
    rewrite !bind_ret.
    apply (Hsamples (Some pv)); [lia|]. intros x s1 s2. off_file.
Qed.

Lemma trailing_bytes_ignored_witness :
  holds_samples example_file /\
  surface_init (example_file ++ [x01; x02; x03])
  = surface_init example_file.
Proof.
  assert (H : holds_samples example_file).
  { split; [vm_compute; discriminate|]. apply Nat.leb_le. vm_compute.
    reflexivity. }
  split; [exact H|]. exact (trailing_bytes_ignored example_file _ H).
Defined.

(** ** First tokens *)

Lemma all_chars_append p a b :
  all_chars p (String.append a b) = all_chars p a && all_chars p b.
Proof.
  induction a as [|c a IH]; simpl; [reflexivity|].
  now rewrite IH, andb_assoc.
Qed.

(** What [split_from] puts first: the run [acc] it was reading extended to
    the next whitespace, or, when it was reading none, the first token of
    the rest. *)
Lemma split_from_first (s : string) : forall acc tok,
  item0 (split_from acc s) = Ok tok ->
  (acc <> EmptyString ->
   exists run post,
     s = String.append run post /\ tok = String.append acc run /\
     all_chars (fun c => negb (isspace c)) run = true /\
     starts_blank post = true) /\
  (acc = EmptyString -> first_token s tok).
Proof.
  induction s as [|c s IH]; intros acc tok H; cbn [split_from] in H.
  - split.
    + intros Hacc. destruct acc; [contradiction|]. injection H as <-.
      exists EmptyString, EmptyString.
      repeat split; now rewrite ?append_empty_r.
    + intros ->. discriminate.
  - destruct (isspace c) eqn:Ec.
    + split.
      * intros Hacc. destruct acc; [contradiction|]. injection H as <-.
        exists EmptyString, (String c s).
        repeat split; [now rewrite append_empty_r | exact Ec].
      * intros ->. simpl in H.
        destruct (proj2 (IH _ _ H) eq_refl)
          as (pre & post & -> & Hpre & Hne & Htok & Hpost).
        exists (String c pre), post. simpl. rewrite Ec, Hpre. now repeat split.
    + assert (Hne : String.append acc (String c EmptyString) <> EmptyString)
        by (destruct acc; discriminate).
      destruct (proj1 (IH _ _ H) Hne) as (run & post & -> & -> & Hrun & Hpost).
      split.
      * intros _. exists (String c run), post. simpl. rewrite Ec, Hrun.
        rewrite append_assoc. now repeat split.
      * intros ->. exists EmptyString, post. simpl. rewrite Ec, Hrun.
        repeat split; [discriminate | exact Hpost].
Qed.

Lemma decode_label_first (l : list byte) (tok : string) :
  decode_label l = Ok tok -> first_token (string_of_list_byte l) tok.
Proof.
  unfold decode_label. destruct (decode_text l) as [t|] eqn:E; [|discriminate].
  apply decode_text_ok in E. destruct E as [_ ->]. unfold split. intros H.
  exact (proj2 (split_from_first _ _ _ H) eq_refl).
Qed.

(** X5: each of the nine labels of an object is the first token of its
    16-byte field (the [k]-th at offset [132 + 16 * k]): the field is
    whitespace, then the label, which is not empty and holds no whitespace,
    then nothing or whitespace and the rest, which is dropped. *)
Theorem labels_first_token (bs : list byte) (r : surface) (k : nat) :
  surface_init bs = Ok r -> (k < 9)%nat ->
  first_token (string_of_list_byte (slice (132 + 16 * k) 16 bs))
              (nth k (labels r) EmptyString).
Proof.
  intros H Hk. apply surface_init_decoded in H.
  do 9 (destruct k as [|k];
        [ apply decode_label_first; cbn [Nat.add Nat.mul nth labels];
          first [ apply (d_xName _ _ H) | apply (d_yName _ _ H)
                | apply (d_zName _ _ H) | apply (d_xStepUnit _ _ H)
                | apply (d_yStepUnit _ _ H) | apply (d_zStepUnit _ _ H)
                | apply (d_xLengthUnit _ _ H) | apply (d_yLengthUnit _ _ H)
                | apply (d_zLengthUnit _ _ H) ] | ]).
  lia.
Qed.

Lemma labels_first_token_witness :
  exists r, surface_init two_word_file = Ok r /\ xName r = "X"%string /\
            first_token "X axis          " (xName r).
Proof.
  destruct (surface_init two_word_file) as [r|e] eqn:E;
    [|vm_compute in E; discriminate].
  exists r. split; [reflexivity|].
  pose proof (labels_first_token two_word_file r 0 E ltac:(lia)) as T.
  assert (Er : Ok r = surface_init two_word_file) by now rewrite E.
  vm_compute in Er.
  assert (Hx : xName r = "X"%string) by (injection Er as ->; reflexivity).
  split; [exact Hx|]. exact T.
Defined.

(** ** Text and integer attributes *)

(** X6: the fixed-width text attributes other than the labels, and the
    comment, are the bytes of their fields as they stand, padding included,
    and all these bytes are ASCII; on a file that holds the whole 512-byte
    header they have exactly 12, 30, 30, 128, 13 and 13 characters. *)
Theorem text_fields_verbatim (bs : list byte) (r : surface) :
  surface_init bs = Ok r ->
  verbatim (slice 0 12 bs) (signature r) /\
  verbatim (slice 20 30 bs) (objectname r) /\
  verbatim (slice 50 30 bs) (operatorname r) /\
  verbatim (slice 338 128 bs) (clientZone r) /\
  verbatim (slice 486 13 bs) (tempStepUnit r) /\
  verbatim (slice 499 13 bs) (tempAxisName r) /\
  verbatim (slice 512 (Z.to_nat (commentSize r)) bs) (comment r) /\
  ((512 <= List.length bs)%nat ->
   String.length (signature r) = 12%nat /\
   String.length (objectname r) = 30%nat /\
   String.length (operatorname r) = 30%nat /\
   String.length (clientZone r) = 128%nat /\
   String.length (tempStepUnit r) = 13%nat /\
   String.length (tempAxisName r) = 13%nat).
Proof.
  intros H. apply surface_init_decoded in H.
  pose proof (decode_text_ok _ _ (d_signature _ _ H)) as H1.
  pose proof (decode_text_ok _ _ (d_objectname _ _ H)) as H2.
  pose proof (decode_text_ok _ _ (d_operatorname _ _ H)) as H3.
  pose proof (decode_text_ok _ _ (d_clientZone _ _ H)) as H4.
  pose proof (decode_text_ok _ _ (d_tempStepUnit _ _ H)) as H5.
  pose proof (decode_text_ok _ _ (d_tempAxisName _ _ H)) as H6.
  pose proof (decode_text_ok _ _ (d_comment _ _ H)) as H7.
  repeat (split; [assumption|]).
  intros Hlen.
  destruct H1 as [_ ->], H2 as [_ ->], H3 as [_ ->], H4 as [_ ->],
           H5 as [_ ->], H6 as [_ ->].
  rewrite !length_string_of_list_byte, !length_slice.
  repeat split; lia.
Qed.

Lemma text_fields_verbatim_witness :
  exists r, surface_init example_file = Ok r /\
            objectname r = "profile                       "%string /\
            String.length (objectname r) = 30%nat.
Proof.
  destruct (surface_init example_file) as [r|e] eqn:E;
    [|vm_compute in E; discriminate].
  exists r. split; [reflexivity|].
  destruct (text_fields_verbatim example_file r E)
    as (_ & [_ Ho] & _ & _ & _ & _ & _ & Hlen).
  split; [exact Ho|].
  apply Hlen. apply Nat.leb_le. vm_compute. reflexivity.
Defined.

Lemma int_from_bytes_lt (l : list byte) :
  int_from_bytes l < 256 ^ Z.of_nat (List.length l).
Proof.
  induction l as [|b l IH]; cbn [int_from_bytes List.length]; [lia|].
  pose proof (Byte.to_N_bounded b) as Hb.
  rewrite Nat2Z.inj_succ, Z.pow_succ_r by lia. lia.
Qed.

Lemma short_range (off : nat) (bs : list byte) :
  0 <= int_from_bytes (slice off 2 bs) < 65536.
Proof.
  split; [apply int_from_bytes_nonneg|].
  pose proof (int_from_bytes_lt (slice off 2 bs)) as H.
  assert (L : (List.length (slice off 2 bs) <= 2)%nat)
    by (rewrite length_slice; lia).
  assert (256 ^ Z.of_nat (List.length (slice off 2 bs)) <= 256 ^ 2)
    by (apply Z.pow_le_mono_r; lia).
  lia.
Qed.

Lemma int_range (l : list byte) (v : Z) :
  unpack_i l = Ok v -> - 2 ^ 31 <= v < 2 ^ 31.
Proof.
  intros H. apply unpack_i_ok in H. destruct H as [Hl ->].
  pose proof (int_from_bytes_nonneg l) as H0.
  pose proof (int_from_bytes_lt l) as H1. rewrite Hl in H1.
  unfold int_signed. change (2 ^ (8 * Z.of_nat 4 - 1)) with (2 ^ 31).
  change (256 ^ Z.of_nat 4) with (2 * 2 ^ 31) in H1.
  destruct (Z.ltb_spec (int_from_bytes l) (2 ^ 31)); lia.
Qed.

(** X7: on every object the 2-byte attributes are unsigned, between 0 and
    65535 (so the comment and the private block have at most 65535
    characters each), and [zMin], [zMax], [xPoints], [yPoints] and
    [totalPoints] are signed 32-bit integers. *)
Theorem integer_ranges (bs : list byte) (r : surface) :
  surface_init bs = Ok r ->
  Forall (fun v => 0 <= v < 65536) (shorts r) /\
  Forall (fun v => - 2 ^ 31 <= v < 2 ^ 31) (int32s r) /\
  Z.of_nat (String.length (comment r)) <= 65535.
Proof.
  intros H. apply surface_init_decoded in H. split; [|split].
  - unfold shorts.
    rewrite (d_format _ _ H), (d_objNum _ _ H), (d_version _ _ H),
      (d_objType _ _ H), (d_materialCode _ _ H), (d_acquisitionType _ _ H),
      (d_rangeType _ _ H), (d_specialPoints _ _ H),
      (d_absoluteHeights _ _ H), (d_sizeOfPoints _ _ H), (d_imprint _ _ H),
      (d_inverted _ _ H), (d_levelled _ _ H), (d_startSeconds _ _ H),
      (d_startMintues _ _ H), (d_startHours _ _ H), (d_startDays _ _ H),
      (d_startMonths _ _ H), (d_startYears _ _ H), (d_startWeekDay _ _ H),
      (d_commentSize _ _ H), (d_privateSize _ _ H).
    unfold width_code.
    repeat (apply Forall_cons; [apply short_range|]). apply Forall_nil.
  - unfold int32s.
    repeat (apply Forall_cons;
            [ eapply int_range;
              first [ apply (d_zMin _ _ H) | apply (d_zMax _ _ H)
                    | apply (d_xPoints _ _ H) | apply (d_yPoints _ _ H)
                    | apply (d_totalPoints _ _ H) ] | ]).
    apply Forall_nil.
  - pose proof (short_range 334 bs) as Hs.
    rewrite <- (d_commentSize _ _ H) in Hs.
    destruct (decode_text_ok _ _ (d_comment _ _ H)) as [_ ->].
    rewrite length_string_of_list_byte, length_slice. lia.
Qed.

Lemma integer_ranges_witness :
  exists r, surface_init wildcard_file = Ok r /\ yPoints r = -1 /\
            Forall (fun v => - 2 ^ 31 <= v < 2 ^ 31) (int32s r).
Proof.
  destruct (surface_init wildcard_file) as [r|e] eqn:E;
    [|vm_compute in E; discriminate].
  exists r. split; [reflexivity|].
  destruct (integer_ranges wildcard_file r E) as (_ & Hi & _).
  split; [|exact Hi].
  assert (Er : Ok r = surface_init wildcard_file) by now rewrite E.
  vm_compute in Er. injection Er as ->. reflexivity.
Defined.

(** ** Which exception comes first *)

Lemma decode_text_raise_eq (l : list byte) (e : exn) :
  decode_text l = Raise e ->
  forallb is_ascii l = false /\ e = UnicodeDecodeError.
Proof.
  unfold decode_text. destruct (forallb is_ascii l); [discriminate|].
  intros [= <-]. now split.
Qed.

Lemma unpack_f4_raise_eq (l : list byte) (e : exn) :
  unpack_f4 l = Raise e -> e = StructError.
Proof.
  unfold unpack_f4, unpack_f. destruct (Nat.eqb _ _); [discriminate|].
  now intros [= <-].
Qed.

(** A text field of the header, read where the exception to come is
    [StructError] if the text read so far is ASCII and [UnicodeDecodeError]
    if not. *)
Ltac text_step :=
  lazymatch goal with
  | |- wp ?Qe ?Qo (bind (read_text ?n) ?k (skipn ?off ?bs)) =>
      let off' := eval vm_compute in (n + off)%nat in
      apply (wp_reader Qe Qo _ n _ k off off' bs (read_text_spec n) eq_refl);
      [ let e := fresh "e" in let H := fresh "H" in
        intros e H; apply decode_text_raise_eq in H; destruct H as [H ->];
        rewrite H; reflexivity
      | let a := fresh "v" in let H := fresh "H" in
        intros a H; apply decode_text_ok in H; destruct H as [H _];
        rewrite H; cbn [andb]; cbv beta ]
  end.

(** X8: a file of fewer than 94 bytes, one that ends before the first
    4-byte field ([gaugeResolution], at offset 90) is complete, raises
    [struct.error] when the bytes of the three text fields before it are
    ASCII, and [UnicodeDecodeError] when they are not; the 2-byte fields cut
    by the end of the file raise nothing. *)
Theorem short_file_exception (bs : list byte) :
  (List.length bs < 94)%nat ->
  surface_init bs =
  Raise (if forallb is_ascii (slice 0 12 bs)
            && forallb is_ascii (slice 20 30 bs)
            && forallb is_ascii (slice 50 30 bs)
         then StructError else UnicodeDecodeError).
Proof.
  intros Hlen.
  assert (W : wp (fun e => e =
                    if forallb is_ascii (slice 0 12 bs)
                       && forallb is_ascii (slice 20 30 bs)
                       && forallb is_ascii (slice 50 30 bs)
                    then StructError else UnicodeDecodeError)
                 (fun _ _ => False) (init_body bs)).
  { change (init_body bs) with (init_body (skipn 0 bs)). unfold init_body.
    text_step.
    do 4 (header_step ltac:(fun H => idtac)).
    text_step. text_step.
    do 5 (header_step ltac:(fun H => idtac)).
    apply (wp_reader _ _ _ 4%nat _ _ 90%nat 94%nat bs read_float4_spec
             eq_refl).
    - intros e He. now apply unpack_f4_raise_eq in He.
    - intros a Ha. apply unpack_f4_ok in Ha. destruct Ha as (_ & _ & _ & Ha).
      apply slice_full in Ha; lia. }
  unfold surface_init.
  destruct (init_body bs) as [[r s]|e]; simpl in W; [contradiction|].
  now rewrite W.
Qed.

Lemma short_file_exception_witness :
  surface_init [] = Raise StructError /\
  surface_init (firstn 93 example_file) = Raise StructError.
Proof.
  split.
  - exact (short_file_exception [] ltac:(simpl; lia)).
  - exact (short_file_exception (firstn 93 example_file)
             ltac:(apply Nat.ltb_lt; vm_compute; reflexivity)).
Defined.

(** X9: the signature is decoded first.  A byte of 0x80 or more among the
    first 12 bytes makes the constructor raise [UnicodeDecodeError],
    whatever the rest of the file is. *)
Theorem non_ascii_signature (bs : list byte) :
  forallb is_ascii (slice 0 12 bs) = false ->
  surface_init bs = Raise UnicodeDecodeError.
Proof.
  intros H. unfold surface_init, init_body.
  unfold bind at 1. rewrite read_text_spec. unfold on_bytes, decode_text.
  change (firstn 12 bs) with (slice 0 12 bs). now rewrite H.
Qed.

Lemma non_ascii_signature_witness :
  surface_init (xff :: example_file) = Raise UnicodeDecodeError.
Proof.
  apply non_ascii_signature. vm_compute. reflexivity.
Defined.

(** ** Plotting *)

Lemma getitem_axis_empty (n : Z) (sp ra : float) (i : Z) :
  n <= 0 -> -1 <= i <= 0 ->
  getitem (scale (range n) sp ra) i = Raise IndexError.
Proof.
  intros Hn Hi. unfold getitem. rewrite length_scale, length_range.
  replace (Z.to_nat n) with 0%nat by lia. simpl Z.of_nat.
  destruct (Z.ltb_spec i 0).
  - replace (i + 0) with (-1) by lia. reflexivity.
  - replace i with 0 by lia. reflexivity.
Qed.

Lemma getitem_axis_first (n : Z) (sp ra : float) :
  0 < n -> getitem (scale (range n) sp ra) 0 = Ok (axis_cell 0 sp ra).
Proof.
  intros Hn. unfold getitem. rewrite length_scale, length_range.
  rewrite Z2Nat.id by lia. cbn [Z.ltb Z.compare Z.leb].
  destruct (Z.ltb_spec 0 n); [|lia]. cbn [andb].
  now rewrite (nth_axis n sp ra 0) by lia.
Qed.

Lemma getitem_axis_last (n : Z) (sp ra : float) :
  0 < n -> getitem (scale (range n) sp ra) (-1) = Ok (axis_cell (n - 1) sp ra).
Proof.
  intros Hn. unfold getitem. rewrite length_scale, length_range.
  rewrite Z2Nat.id by lia. cbn [Z.ltb Z.compare].
  destruct (Z.leb_spec 0 (-1 + n)); [|lia].
  destruct (Z.ltb_spec (-1 + n) n); [|lia]. cbn [andb].
  rewrite (nth_axis n sp ra (-1 + n)) by lia.
  now replace (-1 + n) with (n - 1) by lia.
Qed.

(** X10: [plot] on a decoded object.  With [xPoints <= 0] or
    [yPoints <= 0] an axis is empty and indexing it raises [IndexError]
    before anything is drawn; otherwise the image is [pointsAligned] and
    the extent is the first and the last cell of [xAxis], then the last and
    the first cell of [yAxis]. *)
Theorem plot_extent (bs : list byte) (r : surface) :
  surface_init bs = Ok r ->
  (xPoints r <= 0 \/ yPoints r <= 0 -> plot r = Raise IndexError) /\
  (0 < xPoints r -> 0 < yPoints r ->
   plot r =
   Ok {| image := pointsAligned r;
         extent := [axis_cell 0 (xSpacing r) (xUnitRatio r);
                    axis_cell (xPoints r - 1) (xSpacing r) (xUnitRatio r);
                    axis_cell (yPoints r - 1) (ySpacing r) (yUnitRatio r);
                    axis_cell 0 (ySpacing r) (yUnitRatio r)] |}).
Proof.
  intros H. apply surface_init_decoded in H.
  unfold plot. rewrite (d_xAxis _ _ H), (d_yAxis _ _ H). split.
  - intros Hxy. destruct (Z.le_gt_cases (xPoints r) 0) as [Hx|Hx].
    + now rewrite getitem_axis_empty by lia.
    + rewrite getitem_axis_first, getitem_axis_last by lia.
      destruct Hxy as [Hxy|Hy]; [lia|].
      now rewrite getitem_axis_empty by lia.
  - intros Hx Hy.
    now rewrite !getitem_axis_first, !getitem_axis_last by lia.
Qed.

Lemma plot_extent_witness :
  (exists r c, surface_init example_file = Ok r /\ plot r = Ok c /\
               extent c = [float_of_Z 0; float_of_Z 1;
                           float_of_Z 1; float_of_Z 0]) /\
  (exists r, surface_init truncated_file = Ok r /\
             plot r = Raise IndexError).
Proof.
  split.
  - destruct (surface_init example_file) as [r|e] eqn:E;
      [|vm_compute in E; discriminate].
    pose proof (proj2 (plot_extent example_file r E)) as T.
    assert (Er : Ok r = surface_init example_file) by now rewrite E.
    vm_compute in Er.
    assert (Hx : xPoints r = 2) by (injection Er as ->; reflexivity).
    assert (Hy : yPoints r = 2) by (injection Er as ->; reflexivity).
    specialize (T ltac:(lia) ltac:(lia)).
    exists r. eexists. split; [reflexivity|]. split; [exact T|].
    injection Er as ->. vm_compute. reflexivity.
  - destruct (surface_init truncated_file) as [r|e] eqn:E;
      [|vm_compute in E; discriminate].
    exists r. split; [reflexivity|].
    apply (proj1 (plot_extent truncated_file r E)). left.
    assert (Er : Ok r = surface_init truncated_file) by now rewrite E.
    vm_compute in Er. injection Er as ->. vm_compute. discriminate.
Defined.

(** ** How many samples are read *)

(** X11: the number of samples of an object.  With [avail] the complete
    samples between the end of the trailer and the end of the file, a
    negative [totalPoints] reads all of them and a non-negative one reads
    [totalPoints] of them or, silently, only [avail] when the file holds
    fewer; the grid holds these cells unchanged. *)
Theorem sample_block_read (bs : list byte) (r : surface) :
  surface_init bs = Ok r ->
  let w := Z.to_nat (sizeOfPoints r / 8) in
  let avail := ((List.length bs - sample_offset r) / w)%nat in
  List.length (points r) =
    (if totalPoints r <? 0 then avail
     else Nat.min (Z.to_nat (totalPoints r)) avail) /\
  cells (pointsAligned r) = points r.
Proof.
  intros H w avail. apply surface_init_decoded in H. split.
  - rewrite (d_points _ _ H), length_scale. unfold raw_samples.
    rewrite length_fromfile_items. unfold fromfile_count.
    now rewrite length_skipn.
  - apply (reshape_cells _ _ _ _ (d_pointsAligned _ _ H)).
Qed.

Lemma sample_block_read_witness :
  (exists r, surface_init all_samples_file = Ok r /\
             totalPoints r = -1 /\ List.length (points r) = 4%nat) /\
  (exists r, surface_init total100_file = Ok r /\
             totalPoints r = 100 /\ List.length (points r) = 4%nat).
Proof.
  split.
  - destruct (surface_init all_samples_file) as [r|e] eqn:E;
      [|vm_compute in E; discriminate].
    exists r. split; [reflexivity|].
    destruct (sample_block_read all_samples_file r E) as [Hn _].
    assert (Er : Ok r = surface_init all_samples_file) by now rewrite E.
    vm_compute in Er. injection Er as ->.
    split; [reflexivity|]. rewrite Hn. vm_compute. reflexivity.
  - destruct (surface_init total100_file) as [r|e] eqn:E;
      [|vm_compute in E; discriminate].
    exists r. split; [reflexivity|].
    destruct (sample_block_read total100_file r E) as [Hn _].
    assert (Er : Ok r = surface_init total100_file) by now rewrite E.
    vm_compute in Er. injection Er as ->.
    split; [reflexivity|]. rewrite Hn. vm_compute. reflexivity.
Defined.
